(** * springs: a helical compression spring calculator

    A shallow embedding of [springs.py] and [units.py].

    The program computes with Python floats.  Every function of the program
    is written once, over an interface of the float operations it uses
    ([Floating], [FloatMath], [FloatTrig]), and in an error monad for the
    exceptions Python raises ([ZeroDivisionError] on a zero divisor,
    [ValueError] and [OverflowError] from [pow] and [float],
    [AttributeError] on an attribute that was never set).  The interface has
    two instances:

    - [R], the real numbers: the program read in exact arithmetic, without
      rounding, overflow, underflow, infinities or NaN.  A statement proved
      on this instance says so, and is a statement about the formulas the
      program evaluates; where the floats depart from it in kind (an
      exception instead of a value, a broken inequality or tolerance) the
      departure is proved on the other instance.
    - [float], IEEE 754 binary64, the floats Python really has.  The
      arithmetic ([+ - * /], [float(n)] and literals) is specified bit for
      bit.  [pow] is the correctly rounded power (with the special cases
      and the error handling of CPython 2.7 around it); a C library's [pow]
      may differ from it in the last bit, and agrees with it on overflow,
      on underflow to zero and on exact results.  [atan2] and [cos] are
      left open: a statement on [float] that mentions them holds for every
      implementation.

    The notebook helpers of [ipynb_utils.py] are not part of the model, nor
    is the rendering of a float by ['%.3f']. *)

From Stdlib Require Import Reals Lra Lia ZArith QArith Qreals.
From Stdlib Require Import String Ascii List.
From Stdlib Require Import Floats Uint63.
Import ListNotations.

Set Implicit Arguments.

(** ** Exceptions *)

Inductive exn : Type :=
| ZeroDivisionError
| ValueError
| OverflowError
| AttributeError (attr : string).

Inductive result (A : Type) : Type :=
| Ok (a : A)
| Raise (e : exn).

Arguments Ok {A} a.
Arguments Raise {A} e.

Definition bind {A B : Type} (m : result A) (k : A -> result B) : result B :=
  match m with
  | Ok a => k a
  | Raise e => Raise e
  end.

Declare Scope py_scope.
Delimit Scope py_scope with py.

Notation "x <- m ;; k" := (bind m (fun x => k))
  (at level 61, m at next level, right associativity) : py_scope.

Definition raises {A : Type} (m : result A) : Prop := exists e, m = Raise e.
Definition returns {A : Type} (m : result A) : Prop := exists a, m = Ok a.

(** ** The float operations the program uses *)

Class Floating (F : Type) : Type := {
  lit : Q -> F;              (* a float literal of the source text *)
  of_int : Z -> F;           (* an int literal of the source text, as operand *)
  float_of_int : Z -> result F;   (* float(n) of an int or long n *)
  add : F -> F -> F;
  sub : F -> F -> F;
  mul : F -> F -> F;
  quot : F -> F -> F;        (* the quotient by a divisor that is not zero *)
  is_zero : F -> bool
}.

(** [x / y]: Python raises when the divisor is zero. *)
Definition div {F : Type} {FF : Floating F} (x y : F) : result F :=
  if is_zero y then Raise ZeroDivisionError else Ok (quot x y).

(** [math.pi], the builtin [pow] and [math.pow]. *)
Class FloatMath (F : Type) {FF : Floating F} : Type := {
  pi : F;
  pow : F -> F -> result F;        (* builtin pow(x, y) on floats *)
  math_pow : F -> F -> result F    (* math.pow(x, y) *)
}.

Arguments FloatMath F {FF}.

(** [math.atan2] and [math.cos]. *)
Class FloatTrig (F : Type) : Type := {
  math_atan2 : F -> F -> F;
  math_cos : F -> F
}.

Notation "x + y" := (add x y) : py_scope.
Notation "x - y" := (sub x y) : py_scope.
Notation "x * y" := (mul x y) : py_scope.
Notation "x / y" := (div x y) : py_scope.

(** *** The reals *)

Definition Rzero (x : R) : bool := if Req_dec_T x 0 then true else false.

(** Exact arithmetic: every int is a real number, and nothing is rounded. *)
#[export] Instance R_Floating : Floating R := {|
  lit := Q2R;
  of_int := IZR;
  float_of_int := fun n => Ok (IZR n);
  add := Rplus;
  sub := Rminus;
  mul := Rmult;
  quot := Rdiv;
  is_zero := Rzero
|}.

(** [floor] of the C library. *)
Definition floor (x : R) : R := IZR (Int_part x).

(** DOUBLE_IS_ODD_INTEGER of floatobject.c, for an [x] that is an integer. *)
Definition is_odd_integer (x : R) : bool := Z.odd (Int_part x).

Definition Rltb (x y : R) : bool := if Rlt_dec x y then true else false.
Definition Reqb (x y : R) : bool := if Req_dec_T x y then true else false.

(** The builtin [pow] on two floats (float_pow of CPython 2), on the cases a
    real number can be in; the C library's [pow] is reached with a positive
    base, where it is [Rpower].  A real power neither overflows nor
    underflows: the [OverflowError] of float_pow is in [binary64_pow]
    below. *)
Definition R_pow (iv iw : R) : result R :=
  if Reqb iw 0 then Ok 1%R                       (* v**0 is 1, even 0**0 *)
  else if Reqb iv 0 then
    if Rltb iw 0 then Raise ZeroDivisionError    (* 0.0 to a negative power *)
    else Ok 0%R
  else if Rltb iv 0 then
    if negb (Reqb iw (floor iw)) then Raise ValueError  (* fractional power *)
    else
      let sign := if is_odd_integer iw then (-1)%R else 1%R in
      if Reqb (- iv) 1 then Ok sign
      else Ok (sign * Rpower (- iv) iw)%R
  else
    if Reqb iv 1 then Ok 1%R
    else Ok (Rpower iv iw).

(** [math.pow]: the C library's [pow], any domain error raised as
    [ValueError].  Its [OverflowError] is in [binary64_math_pow] below. *)
Definition R_math_pow (x y : R) : result R :=
  if Reqb y 0 then Ok 1%R
  else if Reqb x 0 then
    if Rltb y 0 then Raise ValueError else Ok 0%R
  else if Rltb x 0 then
    if negb (Reqb y (floor y)) then Raise ValueError
    else Ok ((if is_odd_integer y then -1 else 1) * Rpower (- x) y)%R
  else Ok (Rpower x y).

(** [math.atan2 y x]: the angle of the point (x, y), in (-pi, pi]. *)
Definition R_atan2 (y x : R) : R :=
  if Rltb 0 x then atan (y / x)
  else if Rltb x 0 then
    if Rltb y 0 then (atan (y / x) - PI)%R else (atan (y / x) + PI)%R
  else
    if Rltb 0 y then (PI / 2)%R
    else if Rltb y 0 then (- PI / 2)%R
    else 0%R.

#[export] Instance R_FloatMath : FloatMath R := {|
  pi := PI;
  pow := R_pow;
  math_pow := R_math_pow
|}.

#[export] Instance R_FloatTrig : FloatTrig R := {|
  math_atan2 := R_atan2;
  math_cos := cos
|}.

(** *** binary64 *)

(** The double nearest to an integer, ties to even; infinite beyond the
    range. *)
Definition float_of_Z (z : Z) : float :=
  SF2Prim (binary_normalize prec emax z 0 false).

(** [float(n)]: PyLong_AsDouble rounds to the nearest double and raises
    when that is beyond the largest one. *)
Definition binary64_float_of_int (n : Z) : result float :=
  let x := float_of_Z n in
  if PrimFloat.is_infinity x then Raise OverflowError else Ok x.

Fixpoint iter_sqrt (j : nat) (n : Z) : Z :=
  match j with
  | O => n
  | S j' => iter_sqrt j' (Z.sqrt n)
  end.

(** The double nearest to the [2^j]-th root of the fraction a/b, ties to
    even.  With [s] large enough for [r], the integer part of the root
    scaled by [2^s], to have more than 64 bits, the root lies in
    [[r, r+1)] and is [r] only when [r] is exact; [2r] or [2r+1] at one
    more bit then rounds as the root does. *)
Definition round_root (j : nat) (a b : positive) : float :=
  let s := (64 + Z.log2_up (Zpos b))%Z in
  let k := (s * 2 ^ Z.of_nat j)%Z in
  let n := (Z.shiftl (Zpos a) k / Zpos b)%Z in
  let r := iter_sqrt j n in
  let exact := (r ^ (2 ^ Z.of_nat j) * Zpos b =? Z.shiftl (Zpos a) k)%Z in
  SF2Prim (binary_normalize prec emax (2 * r + (if exact then 0 else 1))
                            (- (s + 1)) false).

(** A decimal literal is read as the double nearest to it. *)
Definition float_of_Q (q : Q) : float :=
  match Qnum q with
  | Z0 => PrimFloat.zero
  | Zpos a => round_root 0 a (Qden q)
  | Zneg a => PrimFloat.opp (round_root 0 a (Qden q))
  end.

#[export] Instance binary64_Floating : Floating float := {|
  lit := float_of_Q;
  of_int := float_of_Z;
  float_of_int := binary64_float_of_int;
  add := PrimFloat.add;
  sub := PrimFloat.sub;
  mul := PrimFloat.mul;
  quot := PrimFloat.div;
  is_zero := fun x => PrimFloat.eqb x PrimFloat.zero
|}.

(** **** The C library's [pow], on finite arguments *)

(** The mantissa [m] and exponent [e] of a double, as the fraction
    [m * 2^e]. *)
Definition fraction (m : positive) (e : Z) : positive * positive :=
  match e with
  | Z0 => (m, 1%positive)
  | Zpos p => (Pos.shiftl m (Npos p), 1%positive)
  | Zneg p => (m, Pos.shiftl 1 (Npos p))
  end.

(** [m * 2^e] with [m] made odd. *)
Fixpoint odd_part (m : positive) (e : Z) : positive * Z :=
  match m with
  | xO m' => odd_part m' (e + 1)
  | _ => (m, e)
  end.

(** [y == floor(y)] for a finite [y]. *)
Definition is_integer64 (y : float) : bool :=
  match Prim2SF y with
  | S754_zero _ => true
  | S754_finite _ m e => let (_, e') := odd_part m e in (0 <=? e')%Z
  | _ => false
  end.

(** DOUBLE_IS_ODD_INTEGER: [fmod(fabs(y), 2.0) == 1.0]. *)
Definition is_odd_integer64 (y : float) : bool :=
  match Prim2SF y with
  | S754_finite _ m e => let (_, e') := odd_part m e in (e' =? 0)%Z
  | _ => false
  end.

(** [copysign(0.0, x)] *)
Definition zero_with_sign_of (x : float) : float :=
  if PrimFloat.get_sign x then PrimFloat.neg_zero else PrimFloat.zero.

(** [x] to the power [y] for finite [x > 0] and finite [y <> 0], correctly
    rounded: [y] is [n / 2^j] for an integer [n], so the power is the
    [2^j]-th root of the fraction [x^n]. *)
Definition pow_positive (x y : float) : float :=
  match Prim2SF x, Prim2SF y with
  | S754_finite _ mx ex, S754_finite sy my ey =>
      let (a, b) := fraction mx ex in
      let (m, e) := odd_part my ey in
      let n := match e with Zpos p => Pos.shiftl m (Npos p) | _ => m end in
      let j := match e with Zneg p => Pos.to_nat p | _ => O end in
      if sy then round_root j (Pos.pow b n) (Pos.pow a n)
      else round_root j (Pos.pow a n) (Pos.pow b n)
  | _, _ => PrimFloat.nan
  end.

(** [pow(x, y)] of C (Annex F of C99) for finite [x] and [y]; CPython
    calls it with no other arguments. *)
Definition libm_pow (x y : float) : float :=
  if PrimFloat.eqb y 0 then 1%float
  else if PrimFloat.eqb x 0 then
    if PrimFloat.ltb y 0 then
      if is_odd_integer64 y then
        (if PrimFloat.get_sign x then PrimFloat.neg_infinity
         else PrimFloat.infinity)
      else PrimFloat.infinity
    else
      if is_odd_integer64 y then x else 0%float
  else if PrimFloat.ltb x 0 then
    if is_integer64 y then
      let r := pow_positive (PrimFloat.abs x) y in
      if is_odd_integer64 y then PrimFloat.opp r else r
    else PrimFloat.nan
  else pow_positive x y.

(** **** The builtin [pow] of CPython 2.7 (float_pow)

    The special cases are sorted out before the C library is called.  The
    library reports a range error on overflow and on underflow to zero;
    Py_ADJUST_ERANGE1 keeps the first and drops the second, so the range
    error left is an infinite result, raised as [OverflowError]. *)
Definition binary64_pow_finish (iv iw : float) (negate_result : bool)
    : result float :=
  if PrimFloat.eqb iv 1 then
    Ok (if negate_result then (-1)%float else 1%float)
  else
    let ix := libm_pow iv iw in
    let ix := if negate_result then PrimFloat.opp ix else ix in
    if PrimFloat.is_infinity ix then Raise OverflowError else Ok ix.

Definition binary64_pow (iv iw : float) : result float :=
  if PrimFloat.eqb iw 0 then Ok 1%float         (* v**0 is 1, even 0**0 *)
  else if PrimFloat.is_nan iv then Ok iv        (* nan**w = nan *)
  else if PrimFloat.is_nan iw then              (* v**nan = nan, 1**nan = 1 *)
    Ok (if PrimFloat.eqb iv 1 then 1%float else iw)
  else if PrimFloat.is_infinity iw then
    let iv := PrimFloat.abs iv in
    if PrimFloat.eqb iv 1 then Ok 1%float
    else if Bool.eqb (PrimFloat.ltb 0 iw) (PrimFloat.ltb 1 iv)
      then Ok (PrimFloat.abs iw)
    else Ok 0%float
  else if PrimFloat.is_infinity iv then
    let iw_is_odd := is_odd_integer64 iw in
    if PrimFloat.ltb 0 iw then Ok (if iw_is_odd then iv else PrimFloat.abs iv)
    else Ok (if iw_is_odd then zero_with_sign_of iv else 0%float)
  else if PrimFloat.eqb iv 0 then
    if PrimFloat.ltb iw 0 then Raise ZeroDivisionError  (* 0.0 to a negative power *)
    else Ok (if is_odd_integer64 iw then iv else 0%float)
  else if PrimFloat.ltb iv 0 then
    if negb (is_integer64 iw) then Raise ValueError     (* fractional power *)
    else binary64_pow_finish (PrimFloat.opp iv) iw (is_odd_integer64 iw)
  else binary64_pow_finish iv iw false.

(** **** [math.pow] of CPython 2.7

    Infinities and NaN are dealt with directly; finite arguments go to the
    C library, whose NaN is raised as [ValueError] and whose infinity as
    [ValueError] for a zero base and [OverflowError] otherwise. *)
Definition binary64_math_pow (x y : float) : result float :=
  if negb (PrimFloat.is_finite x) || negb (PrimFloat.is_finite y) then
    if PrimFloat.is_nan x then
      Ok (if PrimFloat.eqb y 0 then 1%float else x)   (* NaN**0 = 1 *)
    else if PrimFloat.is_nan y then
      Ok (if PrimFloat.eqb x 1 then 1%float else y)   (* 1**NaN = 1 *)
    else if PrimFloat.is_infinity x then
      let odd_y := PrimFloat.is_finite y && is_odd_integer64 y in
      if PrimFloat.ltb 0 y then Ok (if odd_y then x else PrimFloat.abs x)
      else if PrimFloat.eqb y 0 then Ok 1%float
      else Ok (if odd_y then zero_with_sign_of x else 0%float)
    else
      if PrimFloat.eqb (PrimFloat.abs x) 1 then Ok 1%float
      else if PrimFloat.ltb 0 y && PrimFloat.ltb 1 (PrimFloat.abs x) then Ok y
      else if PrimFloat.ltb y 0 && PrimFloat.ltb (PrimFloat.abs x) 1 then
        if PrimFloat.eqb x 0 then Raise ValueError    (* 0**-inf *)
        else Ok (PrimFloat.opp y)
      else Ok 0%float
  else
    let r := libm_pow x y in
    if PrimFloat.is_nan r then Raise ValueError
    else if PrimFloat.is_infinity r then
      if PrimFloat.eqb x 0 then Raise ValueError else Raise OverflowError
    else Ok r.

(** [math.pi] is the double nearest to pi. *)
#[export] Instance binary64_FloatMath : FloatMath float := {|
  pi := 0x1.921fb54442d18p+1%float;
  pow := binary64_pow;
  math_pow := binary64_math_pow
|}.

Local Open Scope py_scope.

(** ** units.py: conversion constants to SI units *)

Module u.
Section Units.
Context {F : Type} {FF : Floating F}.

Definition inch : F := lit 0.0254.               (* inches to meters *)
Definition ft : F := of_int 12 * inch.           (* ft to meters *)
Definition ksi : F := lit 6.89475908677537e6.    (* ksi to pa *)
Definition psi : F := lit 6894.75729.            (* psi to pa *)
Definition lb : F := lit 0.453592.               (* lbf to kg *)
Definition oz : F := quot lb (lit 16.0).         (* oz to kg *)
Definition lbf : F := lit 4.44822.               (* lbf to N *)
Definition ozf : F := quot lbf (lit 16.0).       (* ozf to N *)
Definition grains : F := lit 6.479891e-5.        (* grains to kg *)
Definition g : F := lit 9.81.                    (* m/s^2 *)
End Units.
End u.

(** ** Strings: [str.lower] *)

Definition lower_ascii (c : ascii) : ascii :=
  let n := nat_of_ascii c in
  if andb (Nat.leb 65 n) (Nat.leb n 90) then ascii_of_nat (n + 32) else c.

Fixpoint lower (s : string) : string :=
  match s with
  | EmptyString => EmptyString
  | String c s' => String (lower_ascii c) (lower s')
  end.

(** ** springs.py *)

Section Springs.
Context {F : Type} {FF : Floating F} {FM : FloatMath F} {FT : FloatTrig F}.

(** *** class Material

    The attributes of an instance are set by [__init__]; an attribute that
    was not set is [None] here, and reading it raises [AttributeError]. *)

Record Material : Type := {
  youngs_modulus : option F;
  poisson_ratio : option F;
  density : option F
}.

Definition getattr (name : string) (a : option F) : result F :=
  match a with
  | Some x => Ok x
  | None => Raise (AttributeError name)
  end.

Definition STEEL : string := "steel".

(** An instance on which [__init__] has set nothing. *)
Definition bare_Material : Material :=
  {| youngs_modulus := None; poisson_ratio := None; density := None |}.

(** [Material.__init__]: what it prints, and the instance or the
    exception. *)
Definition Material_init (material : string) : list string * result Material :=
  if String.eqb (lower material) STEEL then
    ([],
     in3 <- pow u.inch (lit 3.0) ;;
     rho <- (lit 0.284 * u.lb) / in3 ;;
     Ok {| youngs_modulus := Some (lit 29e6 * u.psi);
           poisson_ratio := Some (lit 0.3);
           density := Some rho |})
  else
    (["I am not sure about that material"%string], Ok bare_Material).

Definition shear_modulus (self : Material) : result F :=
  E <- getattr "youngs_modulus" (youngs_modulus self) ;;
  nu <- getattr "poisson_ratio" (poisson_ratio self) ;;
  E / (of_int 2 * (of_int 1 + nu)).

(** *** class Spring *)

(** A number a caller passes: a Python int (or long) or a Python float. *)
Inductive number : Type :=
| Int (n : Z)
| Float (x : F).

(** [float(x)]: a float is returned as it is, an int is converted, which
    can fail. *)
Definition to_float (x : number) : result F :=
  match x with
  | Int n => float_of_int n
  | Float x => Ok x
  end.

Record Spring : Type := {
  mean_diameter : F;
  wire_diameter : F;
  free_length : F;
  num_coils : F;
  material : Material
}.

Definition Spring_init (mean_diameter wire_diameter free_length num_coils : number)
    (material : Material) : result Spring :=
  D <- to_float mean_diameter ;;
  d <- to_float wire_diameter ;;
  L0 <- to_float free_length ;;
  N <- to_float num_coils ;;
  Ok {| mean_diameter := D;
        wire_diameter := d;
        free_length := L0;
        num_coils := N;
        material := material |}.

Definition inside_diameter (self : Spring) : result F :=
  Ok (mean_diameter self - wire_diameter self).

Definition outside_diameter (self : Spring) : result F :=
  Ok (mean_diameter self + wire_diameter self).

Definition spring_constant (self : Spring) : result F :=
  G <- shear_modulus (material self) ;;
  d4 <- math_pow (wire_diameter self) (of_int 4) ;;
  let num := G * d4 in
  D3 <- math_pow (mean_diameter self) (of_int 3) ;;
  let den := of_int 8 * D3 * num_coils self in
  num / den.

Definition coil_pitch (self : Spring) : result F :=
  free_length self / num_coils self.

Definition rise_angle (self : Spring) : result F :=
  p <- coil_pitch self ;;
  Ok (math_atan2 p (pi * mean_diameter self)).

Definition solid_height (self : Spring) : result F :=
  Ok (wire_diameter self * (num_coils self + of_int 2)).

Definition max_displacement (self : Spring) : result F :=
  h <- solid_height self ;;
  Ok (free_length self - h).

(** With D = 0 and a positive pitch the rise angle is a right angle.  In
    exact arithmetic its cosine is 0 and the division below fails; the
    cosine of a double is not expected to be 0 there.  No statement of this
    file is about that case. *)
Definition wire_length (self : Spring) : result F :=
  a <- rise_angle self ;;
  t <- num_coils self / math_cos a ;;
  Ok (pi * mean_diameter self * (t + of_int 2)).

Definition max_force (self : Spring) : result F :=
  k <- spring_constant self ;;
  h <- solid_height self ;;
  Ok (k * (free_length self - h)).

Definition spring_index (self : Spring) : result F :=
  mean_diameter self / wire_diameter self.

Definition whal (self : Spring) : result F :=
  C <- spring_index self ;;
  a <- (of_int 4 * C - of_int 1) / (of_int 4 * C - of_int 4) ;;
  b <- lit 0.615 / C ;;
  Ok (a + b).

Definition max_shear (self : Spring) : result F :=
  w <- whal self ;;
  f <- max_force self ;;
  d3 <- pow (wire_diameter self) (lit 3.0) ;;
  (of_int 8 * w * mean_diameter self * f) / (pi * d3).

(** The static method [Spring.solve_diameter]. *)
Definition solve_diameter (mean_diameter num_coils spring_constant : F)
    (material : Material) : result F :=
  D3 <- pow mean_diameter (lit 3.0) ;;
  let num := lit 8.0 * spring_constant * num_coils * D3 in
  den <- shear_modulus material ;;
  q <- num / den ;;
  pow q (lit 0.25).

End Springs.

Arguments Material F : clear implicits.
Arguments Spring F : clear implicits.
Arguments number F : clear implicits.

(** *** Spring.print_properties

    A printed line is kept as the text, or as the format string and the
    float put into it: how ['%.3f'] renders a float is not modelled.  What
    stands right of [%] is a float, or (in the SI branch, where the call
    parentheses are missing) a bound method, which ['%.3f'] rejects with a
    [TypeError]. *)

Inductive line (F : Type) : Type :=
| Text (s : string)
| Formatted (format : string) (x : F).

Arguments Text {F} s.
Arguments Formatted {F} format x.

Inductive argument (F : Type) : Type :=
| Number (x : F)
| BoundMethod (name : string).

Arguments Number {F} x.
Arguments BoundMethod {F} name.

(** How a call of [print_properties] ends. *)
Inductive outcome : Type :=
| Returned
| Raised (e : exn)
| RaisedTypeError.

Section Report.
Context {F : Type} {FF : Floating F} {FM : FloatMath F} {FT : FloatTrig F}.

Definition number_of (r : result F) : result (argument F) :=
  (x <- r ;; Ok (Number x))%py.

(** The print statements of a branch, in order: each evaluates its argument,
    formats it and prints; the first exception ends the call, with the lines
    before it printed. *)
Fixpoint print_lines (items : list (string * result (argument F)))
    : list (line F) * outcome :=
  match items with
  | [] => ([], Returned)
  | (_, Raise e) :: _ => ([], Raised e)
  | (_, Ok (BoundMethod _)) :: _ => ([], RaisedTypeError)
  | (format, Ok (Number x)) :: rest =>
      let (out, r) := print_lines rest in (Formatted format x :: out, r)
  end.

Definition header (name : string) : list (line F) :=
  if String.eqb name "" then []
  else [Text "-------------------------------------";
        Text ("Spring: " ++ name);
        Text "-------------------------------------"].

Definition report_en (self : Spring F) : list (string * result (argument F)) :=
  [("Outer diameter       :%.3f in"%string,
    number_of (o <- outside_diameter self ;; o / u.inch));
   ("Mean diameter        :%.3f in"%string,
    number_of (mean_diameter self / u.inch));
   ("Inside diameter      :%.3f in"%string,
    number_of (i <- inside_diameter self ;; i / u.inch));
   ("Wire diameter        :%.3f in"%string,
    number_of (wire_diameter self / u.inch));
   ("Free length          :%.3f in"%string,
    number_of (free_length self / u.inch));
   ("Number of coils      :%.1f "%string,
    Ok (Number (num_coils self)));
   ("Spring constant      :%.2e lbf/in"%string,
    number_of (k <- spring_constant self ;; a <- k / u.lbf ;; Ok (a * u.inch)));
   ("Spring index [5-15]  :%.1f"%string,
    number_of (spring_index self));
   ("Max force possible   :%.2e lbf"%string,
    number_of (f <- max_force self ;; f / u.lbf));
   ("Max shear stress     :%.2e ksi"%string,
    number_of (t <- max_shear self ;; t / u.ksi));
   ("Solid height         :%.3f in"%string,
    number_of (h <- solid_height self ;; h / u.inch));
   ("Max displacement     :%.3f in"%string,
    number_of (x <- max_displacement self ;; x / u.inch));
   ("Coil pitch           :%.3f in per coil "%string,
    number_of (p <- coil_pitch self ;; p / u.inch));
   ("Rise angle           :%.2f deg"%string,
    number_of (a <- rise_angle self ;; (a * lit 180.0) / pi));
   ("Spring wire length   :%.3f in"%string,
    number_of (l <- wire_length self ;; l / u.inch))].

Definition report_si (self : Spring F) : list (string * result (argument F)) :=
  [("Outer diameter       :%.3f m"%string,
    Ok (BoundMethod "outside_diameter"));
   ("Mean diameter        :%.3f m"%string,
    Ok (Number (mean_diameter self)));
   ("Inside diameter      :%.3f m"%string,
    Ok (BoundMethod "inside_diameter"));
   ("Wire diameter        :%.3f m"%string,
    Ok (Number (wire_diameter self)));
   ("Free length          :%.3f m"%string,
    Ok (Number (free_length self)));
   ("Number of coils      :%.1f "%string,
    Ok (Number (num_coils self)));
   ("Spring constant      :%.2e N/m"%string,
    number_of (spring_constant self));
   ("Spring index  [5-15] :%.1f"%string,
    number_of (spring_index self));
   ("Max force possible   :%.2e N"%string,
    number_of (max_force self));
   ("Max shear stress     :%.2e Pa"%string,
    number_of (max_shear self));
   ("Solid height         :%.3f m"%string,
    number_of (solid_height self));
   ("Max displacement     :%.3f m"%string,
    number_of (max_displacement self));
   ("Coil pitch           :%.3f "%string,
    number_of (coil_pitch self));
   ("Rise angle           :%.2f deg"%string,
    number_of (a <- rise_angle self ;; (a * lit 180.0) / pi));
   ("Spring wire length   :%.3f m"%string,
    number_of (wire_length self));
   ("Shear Modulus        :%0.2e Pa"%string,
    number_of (G <- shear_modulus (material self) ;; G / lit 1e3))].

(** [print_properties(units, name)]: the lines printed and how the call
    ends.  The source's defaults are [units='SI'] and [name='']. *)
Definition print_properties (self : Spring F) (units name : string)
    : list (line F) * outcome :=
  let (body, r) :=
    if String.eqb "en" (lower units) then print_lines (report_en self)
    else if String.eqb "si" (lower units) then print_lines (report_si self)
    else ([Text "Units should be either SI or EN"], Returned) in
  ((header name ++ body)%list, r).

End Report.

(** ** Valid inputs, on the reals

    The invariants of the data model: D > 0, d > 0, D > d, L0 > 0, N >= 1
    for a spring; E > 0 and 0 < nu < 0.5 for a material. *)

Definition valid_geometry (s : Spring R) : Prop :=
  (0 < mean_diameter s /\ 0 < wire_diameter s /\
   wire_diameter s < mean_diameter s /\
   0 < free_length s /\ 1 <= num_coils s)%R.

Definition valid_material (m : Material R) : Prop :=
  exists E nu : R,
    youngs_modulus m = Some E /\ poisson_ratio m = Some nu /\
    (0 < E /\ 0 < nu < / 2)%R.

(** ** The run of the [__main__] block *)

(** The spring of the efunda example: D = (0.500 - 0.035) in, d = 0.035 in,
    L0 = 1 in, N = 8. *)
Definition efunda {F : Type} {FF : Floating F} (steel : Material F)
    : result (Spring F) :=
  Spring_init (Float ((lit 0.500 - lit 0.035) * u.inch))
              (Float (lit 0.035 * u.inch))
              (Float (of_int 1 * u.inch))
              (Int 8)
              steel.

(** The instance [Material('steel')] constructs, on the reals. *)
Definition steel : Material R :=
  {| youngs_modulus := Some (29e6 * 6894.75729)%R;
     poisson_ratio := Some 0.3%R;
     density := Some (0.284 * 0.453592 / 0.0254 ^ 3)%R |}.

(** [Material('steel')] with Python's floats, as [Material.__init__]
    constructs it. *)
Definition steel64 : result (Material float) :=
  snd (Material_init STEEL).

(** The invariants of valid geometry, tested on doubles. *)
Definition valid_geometry64 (s : Spring float) : bool :=
  PrimFloat.ltb 0 (mean_diameter s) && PrimFloat.ltb 0 (wire_diameter s) &&
  PrimFloat.ltb (wire_diameter s) (mean_diameter s) &&
  PrimFloat.ltb 0 (free_length s) && PrimFloat.leb 1 (num_coils s).

Definition valid_material64 (m : Material float) : bool :=
  match youngs_modulus m, poisson_ratio m with
  | Some E, Some nu =>
      PrimFloat.ltb 0 E && PrimFloat.ltb 0 nu && PrimFloat.ltb nu 0.5
  | _, _ => false
  end.

(** ** The closed forms of the specification

    Written from the table of derived quantities, independently of the
    program, to compare the program with. *)

Definition rate_formula (G d D N : R) : R := (G * d ^ 4 / (8 * D ^ 3 * N))%R.

Definition wahl_formula (C : R) : R :=
  ((4 * C - 1) / (4 * C - 4) + 0.615 / C)%R.

Definition max_shear_formula (W D Fmax d : R) : R :=
  (8 * W * D * Fmax / (PI * d ^ 3))%R.

(** [|x - y| < tol] on doubles. *)
Definition near (x y tol : float) : bool :=
  PrimFloat.ltb (PrimFloat.abs (PrimFloat.sub x y)) tol.

(** A conversion factor used as units.py says: [x * c] takes a quantity in
    the unit to SI and [y / c] takes an SI quantity to the unit; both ways
    are defined and undo each other. *)
Definition converts (c : R) : Prop :=
  forall x : R,
    div (x * c)%R c = Ok x /\
    exists y : R, div x c = Ok y /\ (y * c)%R = x.

(** ** Running the program on doubles

    A statement about doubles is a run of the program on closed inputs,
    settled by evaluation.  [exists_run r] gives the value a run [r]
    returns as the witness of the goal. *)

Ltac exists_run r :=
  let v := eval vm_compute in r in
  lazymatch v with
  | Ok ?a => exists a
  end.

Ltac by_run := vm_compute; repeat split.

(** ** The real-number instance: reduction lemmas *)

Local Open Scope R_scope.

Lemma Reqb_true (x y : R) : x = y -> Reqb x y = true.
Proof. intros E. unfold Reqb. destruct (Req_dec_T x y); [reflexivity | contradiction]. Qed.

Lemma Reqb_false (x y : R) : x <> y -> Reqb x y = false.
Proof. intros E. unfold Reqb. destruct (Req_dec_T x y); [contradiction | reflexivity]. Qed.

Lemma Rltb_true (x y : R) : x < y -> Rltb x y = true.
Proof. intros E. unfold Rltb. destruct (Rlt_dec x y); [reflexivity | contradiction]. Qed.

Lemma Rltb_false (x y : R) : ~ x < y -> Rltb x y = false.
Proof. intros E. unfold Rltb. destruct (Rlt_dec x y); [contradiction | reflexivity]. Qed.

Lemma Rzero_true : Rzero 0 = true.
Proof. unfold Rzero. destruct (Req_dec_T 0 0); [reflexivity | contradiction]. Qed.

Lemma Rzero_false (x : R) : x <> 0 -> Rzero x = false.
Proof. intros E. unfold Rzero. destruct (Req_dec_T x 0); [contradiction | reflexivity]. Qed.

(** Division on the reals: the quotient, or [ZeroDivisionError]. *)
Lemma div_ok (x y : R) : y <> 0 -> div x y = Ok (x / y).
Proof. intros E. unfold div. cbn. now rewrite Rzero_false. Qed.

Lemma div_by_zero (x y : R) : y = 0 -> div x y = Raise ZeroDivisionError.
Proof. intros ->. unfold div. cbn. now rewrite Rzero_true. Qed.

Lemma div_inv (x y q : R) : div x y = Ok q -> y <> 0 /\ q = x / y.
Proof.
  unfold div. cbn. unfold Rzero.
  destruct (Req_dec_T y 0); [discriminate | intros [= <-]; auto].
Qed.

Lemma Int_part_IZR (z : Z) : Int_part (IZR z) = z.
Proof. symmetry. apply Int_part_spec. lra. Qed.

Lemma floor_IZR (z : Z) : floor (IZR z) = IZR z.
Proof. unfold floor. now rewrite Int_part_IZR. Qed.

Lemma Rpower_3 (x : R) : 0 < x -> Rpower x 3 = x ^ 3.
Proof. intros H. replace 3 with (INR 3) by (simpl; lra). now apply Rpower_pow. Qed.

Lemma Rpower_4 (x : R) : 0 < x -> Rpower x 4 = x ^ 4.
Proof. intros H. replace 4 with (INR 4) by (simpl; lra). now apply Rpower_pow. Qed.

Lemma Rpower_base_1 (y : R) : Rpower 1 y = 1.
Proof. unfold Rpower. rewrite ln_1, Rmult_0_r. apply exp_0. Qed.

Lemma Rpower_pos (x y : R) : 0 < Rpower x y.
Proof. unfold Rpower. apply exp_pos. Qed.

(** [math.pow(x, 3)] and [math.pow(x, 4)] never fail and are the cube and
    the fourth power. *)
Lemma math_pow_3 (x : R) : math_pow x (of_int 3) = Ok (x ^ 3).
Proof.
  cbn. unfold R_math_pow.
  rewrite (Reqb_false (x := 3) (y := 0)) by lra.
  destruct (Req_dec_T x 0) as [-> | Hx].
  - rewrite Reqb_true by reflexivity. rewrite Rltb_false by lra. f_equal. ring.
  - rewrite (Reqb_false Hx).
    destruct (Rlt_dec x 0) as [Hneg | Hpos].
    + rewrite (Rltb_true Hneg). rewrite Reqb_true by (now rewrite floor_IZR).
      cbn [negb]. unfold is_odd_integer. rewrite Int_part_IZR. cbn [Z.odd].
      rewrite Rpower_3 by lra. f_equal. ring.
    + rewrite (Rltb_false Hpos). rewrite Rpower_3 by lra. reflexivity.
Qed.

Lemma math_pow_4 (x : R) : math_pow x (of_int 4) = Ok (x ^ 4).
Proof.
  cbn. unfold R_math_pow.
  rewrite (Reqb_false (x := 4) (y := 0)) by lra.
  destruct (Req_dec_T x 0) as [-> | Hx].
  - rewrite Reqb_true by reflexivity. rewrite Rltb_false by lra. f_equal. ring.
  - rewrite (Reqb_false Hx).
    destruct (Rlt_dec x 0) as [Hneg | Hpos].
    + rewrite (Rltb_true Hneg). rewrite Reqb_true by (now rewrite floor_IZR).
      cbn [negb]. unfold is_odd_integer. rewrite Int_part_IZR. cbn [Z.odd].
      rewrite Rpower_4 by lra. f_equal. ring.
    + rewrite (Rltb_false Hpos). rewrite Rpower_4 by lra. reflexivity.
Qed.

(** The builtin [pow] with a positive base and a nonzero exponent. *)
Lemma pow_pos_base (x y : R) : 0 < x -> y <> 0 -> pow x y = Ok (Rpower x y).
Proof.
  intros Hx Hy. cbn. unfold R_pow.
  rewrite (Reqb_false Hy). rewrite Reqb_false by lra. rewrite Rltb_false by lra.
  destruct (Req_dec_T x 1) as [-> | H1].
  - rewrite Reqb_true by reflexivity. now rewrite Rpower_base_1.
  - now rewrite (Reqb_false H1).
Qed.

(** The float literals of the program, as reals. *)
Lemma lit_3 : lit 3.0 = 3.
Proof. cbn. unfold Q2R. simpl. lra. Qed.

Lemma lit_quarter : lit 0.25 = / 4.
Proof. cbn. unfold Q2R. simpl. lra. Qed.

Lemma lit_8 : lit 8.0 = 8.
Proof. cbn. unfold Q2R. simpl. lra. Qed.

Lemma pow_3_pos (x : R) : 0 < x -> pow x (lit 3.0) = Ok (x ^ 3).
Proof.
  intros H. rewrite lit_3. rewrite pow_pos_base by lra. now rewrite Rpower_3.
Qed.

Lemma pow_0_quarter : pow 0 (lit 0.25) = Ok 0.
Proof.
  rewrite lit_quarter. cbn. unfold R_pow.
  rewrite Reqb_false by lra. rewrite Reqb_true by reflexivity.
  now rewrite Rltb_false by lra.
Qed.

(** The fourth root that [solve_diameter] takes: positive, and its fourth
    power is the radicand. *)
Lemma pow_quarter (q : R) :
  0 < q -> exists r, pow q (lit 0.25) = Ok r /\ 0 < r /\ r ^ 4 = q.
Proof.
  intros H. exists (Rpower q (/ 4)). rewrite lit_quarter.
  rewrite pow_pos_base by lra. split; [reflexivity | split].
  - apply Rpower_pos.
  - rewrite <- Rpower_4 by apply Rpower_pos.
    rewrite Rpower_mult. replace (/ 4 * 4) with 1 by lra. now apply Rpower_1.
Qed.

(** ** Spring rate and force at solid height *)

(** The shear modulus of a valid material is E / (2 (1 + nu)), and is
    positive. *)
Lemma shear_modulus_valid (m : Material R) (E nu : R) :
  youngs_modulus m = Some E -> poisson_ratio m = Some nu -> nu <> -1 ->
  shear_modulus m = Ok (E / (2 * (1 + nu))).
Proof.
  intros HE Hnu Hne. unfold shear_modulus. rewrite HE, Hnu. cbn.
  apply div_ok. lra.
Qed.

(** With a shear modulus [G] at hand, the rate is G d^4 / (8 D^3 N) as soon
    as the denominator is not zero. *)
Lemma spring_constant_value (s : Spring R) (G : R) :
  shear_modulus (material s) = Ok G ->
  mean_diameter s <> 0 -> num_coils s <> 0 ->
  spring_constant s =
    Ok (G * wire_diameter s ^ 4 / (8 * mean_diameter s ^ 3 * num_coils s)).
Proof.
  intros HG HD HN. unfold spring_constant. rewrite HG. cbn [bind].
  rewrite math_pow_4, math_pow_3. cbn [bind]. cbn.
  apply div_ok.
  assert (mean_diameter s ^ 3 <> 0) by now apply pow_nonzero.
  repeat apply Rmult_integral_contrapositive_currified; auto; lra.
Qed.

(** C7, in exact arithmetic: for every spring of valid geometry and
    material, [spring_constant] returns G d^4 / (8 D^3 N) with G the shear
    modulus of the material, and [max_force] returns [spring_constant]
    times [max_displacement].  (With doubles [spring_constant] does not
    return for every such spring, as shown below.) *)
Theorem spring_constant_and_max_force (s : Spring R) :
  valid_geometry s -> valid_material (material s) ->
  exists G k x : R,
    shear_modulus (material s) = Ok G /\
    spring_constant s = Ok k /\
    k = G * wire_diameter s ^ 4 / (8 * mean_diameter s ^ 3 * num_coils s) /\
    max_displacement s = Ok x /\
    max_force s = Ok (k * x).
Proof.
  intros (HD & Hd & Hlt & HL & HN) (E & nu & HE & Hnu & HEpos & Hnupos).
  assert (HG : shear_modulus (material s) = Ok (E / (2 * (1 + nu))))
    by (apply shear_modulus_valid; auto; lra).
  pose proof (spring_constant_value s HG) as Hk.
  rewrite Hk by lra.
  eexists _, _, _. split; [exact HG |]. split; [reflexivity |].
  split; [reflexivity |]. unfold max_force, max_displacement, solid_height.
  rewrite Hk by lra. cbn. split; reflexivity.
Qed.

(** The statement at the spring of the efunda example: D = 0.465 in,
    d = 0.035 in, L0 = 1 in, N = 8, steel. *)
Lemma spring_constant_and_max_force_witness :
  exists G k x : R,
    let s := {| mean_diameter := 0.465 * 0.0254;
                wire_diameter := 0.035 * 0.0254;
                free_length := 0.0254;
                num_coils := 8;
                material := steel |} in
    shear_modulus (material s) = Ok G /\
    spring_constant s = Ok k /\
    k = G * wire_diameter s ^ 4 / (8 * mean_diameter s ^ 3 * num_coils s) /\
    max_displacement s = Ok x /\
    max_force s = Ok (k * x).
Proof.
  apply (@spring_constant_and_max_force
           {| mean_diameter := 0.465 * 0.0254;
              wire_diameter := 0.035 * 0.0254;
              free_length := 0.0254;
              num_coils := 8;
              material := steel |}).
  - unfold valid_geometry. simpl. lra.
  - exists (29e6 * 6894.75729), 0.3. simpl. repeat split; lra.
Defined.

(** C7 fails with Python's floats.  Both springs are of valid geometry and
    of steel.  With D = 1e103 and d = 1e102 the fourth power of d is beyond
    the doubles: [math.pow] raises [OverflowError], and so do
    [spring_constant] and [max_force].  With D = 1e-120 and d = 1e-121 both
    powers underflow to 0.0, the denominator 8 D^3 N is 0.0, and they raise
    [ZeroDivisionError]. *)
Lemma spring_constant_fails_on_valid_geometry :
  exists m : Material float,
    steel64 = Ok m /\ valid_material64 m = true /\
    (let s := {| mean_diameter := lit 1e103; wire_diameter := lit 1e102;
                 free_length := 1%float; num_coils := 1%float;
                 material := m |} in
     valid_geometry64 s = true /\
     math_pow (wire_diameter s) (of_int 4) = Raise OverflowError /\
     spring_constant s = Raise OverflowError /\
     max_force s = Raise OverflowError) /\
    (let s := {| mean_diameter := lit 1e-120; wire_diameter := lit 1e-121;
                 free_length := 1%float; num_coils := 1%float;
                 material := m |} in
     valid_geometry64 s = true /\
     math_pow (wire_diameter s) (of_int 4) = Ok 0%float /\
     math_pow (mean_diameter s) (of_int 3) = Ok 0%float /\
     spring_constant s = Raise ZeroDivisionError /\
     max_force s = Raise ZeroDivisionError).
Proof. exists_run steel64. by_run. Qed.

(** ** The inverse design: [solve_diameter] *)

(** [pow(x, 3.0)] is the cube for every real base. *)
Lemma pow_3 (x : R) : pow x (lit 3.0) = Ok (x ^ 3).
Proof.
  destruct (Rlt_dec 0 x) as [Hpos | Hnpos]; [now apply pow_3_pos |].
  rewrite lit_3. cbn. unfold R_pow.
  rewrite (Reqb_false (x := 3) (y := 0)) by lra.
  destruct (Req_dec_T x 0) as [-> | Hx].
  - rewrite Reqb_true by reflexivity. rewrite Rltb_false by lra. f_equal. ring.
  - rewrite (Reqb_false Hx). rewrite Rltb_true by lra.
    rewrite Reqb_true by (now rewrite floor_IZR). cbn [negb].
    unfold is_odd_integer. rewrite Int_part_IZR. cbn [Z.odd].
    destruct (Req_dec_T (- x) 1) as [H1 | H1].
    + rewrite (Reqb_true H1). f_equal. replace x with (- (1)) by lra. ring.
    + rewrite (Reqb_false H1). rewrite Rpower_3 by lra. f_equal. ring.
Qed.

(** What [solve_diameter] hands to the fourth root. *)
Lemma solve_diameter_unfold (D N k G : R) (mat : Material R) :
  shear_modulus mat = Ok G -> G <> 0 ->
  solve_diameter D N k mat = pow (8 * k * N * D ^ 3 / G) (lit 0.25).
Proof.
  intros HG HG0. unfold solve_diameter. rewrite pow_3. cbn [bind].
  rewrite HG. cbn [bind]. rewrite lit_8. cbn [mul R_Floating].
  rewrite div_ok by assumption. reflexivity.
Qed.




(** ** Diameters *)

(** C9, in exact arithmetic: for every spring, in particular every one of
    valid geometry, [outside_diameter] minus [inside_diameter] is twice the
    wire diameter exactly, so within any tolerance.  With doubles, for the
    spring of the efunda example, the difference is within 1e-9 of 2 d
    relatively.  (With doubles this does not hold for every valid geometry,
    as shown below.) *)
Theorem outside_minus_inside :
  (forall s : Spring R,
     exists o i : R,
       outside_diameter s = Ok o /\ inside_diameter s = Ok i /\
       o - i = 2 * wire_diameter s /\
       Rabs ((o - i) - 2 * wire_diameter s) <= 1e-9 * Rabs (2 * wire_diameter s)) /\
  (forall m : Material float,
     exists (s : Spring float) (o i : float),
       efunda m = Ok s /\
       outside_diameter s = Ok o /\ inside_diameter s = Ok i /\
       near (o - i)%py (of_int 2 * wire_diameter s)%py
            (lit 1e-9 * (of_int 2 * wire_diameter s))%py = true).
Proof.
  split.
  - intros s.
    exists (mean_diameter s + wire_diameter s), (mean_diameter s - wire_diameter s).
    split; [reflexivity | split; [reflexivity | split]].
    + ring.
    + replace (mean_diameter s + wire_diameter s -
               (mean_diameter s - wire_diameter s) - 2 * wire_diameter s)
        with 0 by ring.
      rewrite Rabs_R0. apply Rmult_le_pos; [lra | apply Rabs_pos].
  - intros m. vm_compute. repeat eexists.
Qed.

(** C9 fails with Python's floats: the sum and the difference are each
    rounded to the precision of D, not of d.  For the valid geometry D = 1,
    d = 1e-9 the difference of the diameters is above 2.00000005e-9, so
    not within 1e-9 of 2 d relatively; for D = 1e17, d = 1 both
    diameters are 1e17 and their difference is 0. *)
Lemma outside_minus_inside_rounds :
  (let s : Spring float :=
     {| mean_diameter := 1%float; wire_diameter := lit 1e-9;
        free_length := 1%float; num_coils := 1%float;
        material := bare_Material |} in
   valid_geometry64 s = true /\
   (o <- outside_diameter s ;; i <- inside_diameter s ;;
    Ok (PrimFloat.ltb (lit 2.00000005e-9) (o - i)))%py = Ok true /\
   (o <- outside_diameter s ;; i <- inside_diameter s ;;
    Ok (near (o - i) (of_int 2 * wire_diameter s)
             (lit 1e-9 * (of_int 2 * wire_diameter s))))%py = Ok false) /\
  (let s : Spring float :=
     {| mean_diameter := 1e17%float; wire_diameter := 1%float;
        free_length := 1%float; num_coils := 1%float;
        material := bare_Material |} in
   valid_geometry64 s = true /\
   (o <- outside_diameter s ;; i <- inside_diameter s ;; Ok (o - i))%py
     = Ok 0%float /\
   (o <- outside_diameter s ;; i <- inside_diameter s ;;
    Ok (near (o - i) (of_int 2 * wire_diameter s)
             (lit 1e-9 * (of_int 2 * wire_diameter s))))%py = Ok false).
Proof. by_run. Qed.

(** ** The Wahl factor *)

Lemma lit_0_615 : lit 0.615 = 0.615.
Proof. cbn. unfold Q2R. simpl. lra. Qed.

(** [whal] on an index that is neither 0 nor 1. *)
Lemma whal_value (s : Spring R) (C : R) :
  spring_index s = Ok C -> C <> 0 -> C <> 1 ->
  whal s = Ok ((4 * C - 1) / (4 * C - 4) + 0.615 / C).
Proof.
  intros HC H0 H1. unfold whal. rewrite HC. cbn [bind].
  cbn [of_int add sub mul R_Floating].
  rewrite div_ok by lra. cbn [bind]. rewrite lit_0_615.
  rewrite div_ok by assumption. reflexivity.
Qed.

Lemma wahl_above_1 (C : R) : 1 < C -> 1 < (4 * C - 1) / (4 * C - 4) + 0.615 / C.
Proof.
  intros H.
  assert (H1 : 1 < (4 * C - 1) / (4 * C - 4)).
  { apply Rmult_lt_reg_r with (4 * C - 4); [lra |].
    unfold Rdiv. rewrite Rmult_assoc, Rinv_l by lra. lra. }
  assert (H2 : 0 < 0.615 / C) by (apply Rdiv_lt_0_compat; lra).
  lra.
Qed.

(** [max_shear] is the uncorrected stress 8 D F / (pi d^3) times the Wahl
    factor. *)
Lemma max_shear_value (s : Spring R) (w f : R) :
  whal s = Ok w -> max_force s = Ok f -> wire_diameter s <> 0 ->
  max_shear s =
    Ok (w * (8 * mean_diameter s * f / (PI * wire_diameter s ^ 3))).
Proof.
  intros Hw Hf Hd.
  assert (Hden : PI * wire_diameter s ^ 3 <> 0).
  { apply Rmult_integral_contrapositive_currified.
    - pose proof PI_RGT_0. lra.
    - now apply pow_nonzero. }
  unfold max_shear. rewrite Hw. cbn [bind]. rewrite Hf. cbn [bind].
  rewrite pow_3. cbn [bind]. cbn [of_int mul R_Floating pi R_FloatMath].
  rewrite div_ok by assumption. f_equal. field.
  split; [assumption | pose proof PI_RGT_0; lra].
Qed.

(** C10, on the reals: for every spring whose index C = D/d is above 1,
    [whal] returns (4C-1)/(4C-4) + 0.615/C and that is above 1; [max_shear]
    is then the uncorrected stress 8 D F / (pi d^3) times this factor, and
    is not smaller in magnitude.  (On binary64 the factor can round to
    exactly 1.0, as shown below.) *)
Theorem whal_above_1 (s : Spring R) (C : R) :
  spring_index s = Ok C -> 1 < C ->
  exists w : R,
    whal s = Ok w /\
    w = (4 * C - 1) / (4 * C - 4) + 0.615 / C /\
    1 < w /\
    forall f : R, max_force s = Ok f ->
      let tau0 := 8 * mean_diameter s * f / (PI * wire_diameter s ^ 3) in
      max_shear s = Ok (w * tau0) /\ Rabs tau0 <= Rabs (w * tau0).
Proof.
  intros HC H1.
  exists ((4 * C - 1) / (4 * C - 4) + 0.615 / C).
  pose proof (wahl_above_1 H1) as Hw.
  assert (Hwhal := @whal_value s C HC ltac:(lra) ltac:(lra)).
  split; [exact Hwhal | split; [reflexivity | split; [exact Hw |]]].
  intros f Hf tau0.
  destruct (div_inv _ _ HC) as [Hd _].
  split.
  - now apply max_shear_value.
  - rewrite Rabs_mult.
    rewrite (Rabs_right _ (Rle_ge _ _ (Rlt_le _ _ (Rlt_trans _ _ _ Rlt_0_1 Hw)))).
    pose proof (Rabs_pos tau0). nra.
Qed.

Lemma whal_above_1_witness :
  exists w : R,
    let s := {| mean_diameter := 9; wire_diameter := 1; free_length := 10;
                num_coils := 5; material := bare_Material |} in
    whal s = Ok w /\
    w = (4 * 9 - 1) / (4 * 9 - 4) + 0.615 / 9 /\
    1 < w /\
    forall f : R, max_force s = Ok f ->
      let tau0 := 8 * mean_diameter s * f / (PI * wire_diameter s ^ 3) in
      max_shear s = Ok (w * tau0) /\ Rabs tau0 <= Rabs (w * tau0).
Proof.
  apply (@whal_above_1
           {| mean_diameter := 9; wire_diameter := 1; free_length := 10;
              num_coils := 5; material := bare_Material |} 9).
  - unfold spring_index. cbn [mean_diameter wire_diameter].
    rewrite div_ok by lra. f_equal. lra.
  - lra.
Defined.

(** C10 fails on binary64.  With D = 1e17 and d = 1 the index is 1e17; the
    doubles near 4e17 are 64 apart, so 4C - 1 and 4C - 4 both round to 4e17,
    their quotient is 1.0, and 0.615/C = 6.15e-18 is less than half the gap
    above 1.0: [whal] returns exactly 1.0, which is not above 1. *)
Lemma whal_rounds_to_1 :
  let s : Spring float :=
    {| mean_diameter := 1e17%float; wire_diameter := 1%float;
       free_length := 1%float; num_coils := 1%float;
       material := bare_Material |} in
  spring_index s = Ok 1e17%float /\
  PrimFloat.ltb 1 1e17 = true /\
  whal s = Ok 1%float /\
  PrimFloat.ltb 1 1 = false.
Proof. vm_compute. repeat split; reflexivity. Qed.

(** ** The rise angle *)

(** C8: [rise_angle] returns atan2(coil_pitch, pi D) whenever the coil count
    is not zero, so for every spring of valid geometry; and when the pitch
    L0/N is zero it returns exactly 0 rather than failing. *)
Theorem rise_angle_atan2 (s : Spring R) :
  num_coils s <> 0 ->
  exists p : R,
    coil_pitch s = Ok p /\ p = free_length s / num_coils s /\
    rise_angle s = Ok (math_atan2 p (pi * mean_diameter s)) /\
    (p = 0 -> 0 <= mean_diameter s -> rise_angle s = Ok 0).
Proof.
  intros HN. exists (free_length s / num_coils s).
  assert (Hp : coil_pitch s = Ok (free_length s / num_coils s))
    by (unfold coil_pitch; now apply div_ok).
  split; [exact Hp | split; [reflexivity |]].
  unfold rise_angle. rewrite Hp. cbn [bind]. split; [reflexivity |].
  intros -> HD. cbn. unfold R_atan2. pose proof PI_RGT_0 as Hpi.
  destruct (Req_dec_T (mean_diameter s) 0) as [-> | HD0].
  - rewrite Rmult_0_r. now rewrite !Rltb_false by lra.
  - rewrite Rltb_true by (apply Rmult_lt_0_compat; lra).
    unfold Rdiv. rewrite Rmult_0_l. now rewrite atan_0.
Qed.

Lemma rise_angle_atan2_witness :
  exists p : R,
    let s := {| mean_diameter := 2; wire_diameter := 1; free_length := 0;
                num_coils := 5; material := bare_Material |} in
    coil_pitch s = Ok p /\ p = free_length s / num_coils s /\
    rise_angle s = Ok (math_atan2 p (pi * mean_diameter s)) /\
    (p = 0 -> 0 <= mean_diameter s -> rise_angle s = Ok 0).
Proof.
  apply (@rise_angle_atan2
           {| mean_diameter := 2; wire_diameter := 1; free_length := 0;
              num_coils := 5; material := bare_Material |}).
  simpl. lra.
Defined.

(** ** The steel material *)

Lemma lit_inch : @u.inch R _ = 0.0254.
Proof. unfold u.inch. cbn. unfold Q2R. simpl. lra. Qed.

Lemma lit_psi : @u.psi R _ = 6894.75729.
Proof. unfold u.psi. cbn. unfold Q2R. simpl. lra. Qed.

Lemma lit_lb : @u.lb R _ = 0.453592.
Proof. unfold u.lb. cbn. unfold Q2R. simpl. lra. Qed.

Lemma lit_29e6 : lit 29e6 = 29e6.
Proof. cbn. unfold Q2R. simpl. lra. Qed.

Lemma lit_0_3 : lit 0.3 = 0.3.
Proof. cbn. unfold Q2R. simpl. lra. Qed.

Lemma lit_0_284 : lit 0.284 = 0.284.
Proof. cbn. unfold Q2R. simpl. lra. Qed.

(** Any spelling of "steel" constructs [steel] and prints nothing. *)
Lemma Material_init_steel (name : string) :
  lower name = STEEL -> Material_init name = ([], Ok steel).
Proof.
  intros H. unfold Material_init. rewrite H. rewrite String.eqb_refl.
  f_equal. rewrite lit_inch, pow_3. cbn [bind].
  rewrite lit_0_284, lit_lb. cbn [mul R_Floating].
  rewrite div_ok by (apply pow_nonzero; lra). cbn [bind].
  rewrite lit_29e6, lit_psi, lit_0_3. reflexivity.
Qed.

(** C5: constructing the steel material gives E = 29e6 psi in pascals,
    nu = 0.3 and a density of 0.284 lb/in^3 in kg/m^3; [shear_modulus]
    returns E / (2 (1 + nu)), which is E / 2.6: exactly on the reals, and to
    the last bit on binary64. *)
Theorem steel_material :
  (exists (m : Material R) (E G : R),
     Material_init "steel" = ([], Ok m) /\
     Material_init "Steel" = ([], Ok m) /\
     youngs_modulus m = Some E /\ E = 29e6 * 6894.75729 /\
     poisson_ratio m = Some 0.3 /\
     density m = Some (0.284 * 0.453592 / 0.0254 ^ 3) /\
     shear_modulus m = Ok G /\
     G = E / (2 * (1 + 0.3)) /\ G = E / 2.6) /\
  (forall rho : option float,
     let E := (lit 29e6 * u.psi)%py in
     shear_modulus {| youngs_modulus := Some E;
                      poisson_ratio := Some (lit 0.3);
                      density := rho |} = (E / lit 2.6)%py /\
     (E / lit 2.6)%py = Ok 0x1.1e7c79a40c4ecp+36%float).
Proof.
  split.
  - exists steel, (29e6 * 6894.75729), (29e6 * 6894.75729 / (2 * (1 + 0.3))).
    split; [now apply Material_init_steel |].
    split; [now apply Material_init_steel |].
    repeat (split; [reflexivity |]).
    split; [| split; [reflexivity | lra]].
    now apply shear_modulus_valid; try reflexivity; lra.
  - intros rho. vm_compute. split; reflexivity.
Qed.

(** ** The efunda example *)

Lemma lit_0_500 : lit 0.500 = 0.5.
Proof. cbn. unfold Q2R. simpl. lra. Qed.

Lemma lit_0_035 : lit 0.035 = 0.035.
Proof. cbn. unfold Q2R. simpl. lra. Qed.

(** The spring of the example, on the reals. *)
Lemma efunda_steel :
  efunda steel =
    Ok {| mean_diameter := (0.5 - 0.035) * 0.0254;
          wire_diameter := 0.035 * 0.0254;
          free_length := 1 * 0.0254;
          num_coils := 8;
          material := steel |}.
Proof.
  unfold efunda, Spring_init. cbn [to_float].
  rewrite lit_inch, lit_0_500, lit_0_035. reflexivity.
Qed.

(** C6: for D = (0.5 - 0.035) in, d = 0.035 in, L0 = 1 in, N = 8 and steel,
    the index is 13.29 to two decimals, the solid height 0.35 in, the
    greatest displacement 0.65 in, and [spring_constant] and [max_shear]
    agree with the closed forms of the specification within 1e-6,
    relatively.  The first three are also checked on binary64. *)
Theorem efunda_example :
  (exists (s : Spring R) (C h x k tau : R),
     efunda steel = Ok s /\
     spring_index s = Ok C /\ Rabs (C - 13.29) < 0.005 /\
     solid_height s = Ok h /\ h = 0.35 * 0.0254 /\
     max_displacement s = Ok x /\ x = 0.65 * 0.0254 /\
     spring_constant s = Ok k /\ 455.5 < k < 455.6 /\
     (let G := 29e6 * 6894.75729 / 2.6 in
      let k_ref := rate_formula G (0.035 * 0.0254) (0.465 * 0.0254) 8 in
      Rabs (k - k_ref) <= 1e-6 * Rabs k_ref /\
      max_shear s = Ok tau /\
      let W := wahl_formula (0.465 / 0.035) in
      let Fmax := k_ref * (0.65 * 0.0254) in
      let tau_ref := max_shear_formula W (0.465 * 0.0254) Fmax (0.035 * 0.0254) in
      Rabs (tau - tau_ref) <= 1e-6 * Rabs tau_ref)) /\
  (forall m : Material float,
     exists (s : Spring float) (C h x hin xin : float),
       efunda m = Ok s /\
       spring_index s = Ok C /\ near C (lit 13.29) (lit 0.005) = true /\
       solid_height s = Ok h /\ (h / u.inch)%py = Ok hin /\
       near hin (lit 0.35) (lit 0.005) = true /\
       max_displacement s = Ok x /\ (x / u.inch)%py = Ok xin /\
       near xin (lit 0.65) (lit 0.005) = true).
Proof.
  split.
  - set (D := (0.5 - 0.035) * 0.0254). set (d := 0.035 * 0.0254).
    set (s := {| mean_diameter := D; wire_diameter := d;
                 free_length := 1 * 0.0254; num_coils := 8;
                 material := steel |}).
    set (G := 29e6 * 6894.75729 / 2.6).
    assert (HG : shear_modulus (material s) = Ok G).
    { cbn [material s]. unfold steel.
      rewrite (@shear_modulus_valid _ (29e6 * 6894.75729) 0.3);
        try reflexivity; try lra.
      f_equal. unfold G. lra. }
    assert (Hk : spring_constant s = Ok (G * d ^ 4 / (8 * D ^ 3 * 8))).
    { rewrite (@spring_constant_value s G HG); [reflexivity | |];
        cbn [mean_diameter num_coils s]; unfold D; lra. }
    assert (HC : spring_index s = Ok (D / d)).
    { unfold spring_index. cbn [mean_diameter wire_diameter s].
      apply div_ok. unfold d. lra. }
    assert (Hf : max_force s = Ok (G * d ^ 4 / (8 * D ^ 3 * 8) * (1 * 0.0254 - d * (8 + 2)))).
    { unfold max_force. rewrite Hk. reflexivity. }
    assert (Hw : whal s = Ok ((4 * (D / d) - 1) / (4 * (D / d) - 4) + 0.615 / (D / d))).
    { apply whal_value; [exact HC | |]; unfold D, d; lra. }
    assert (Htau := @max_shear_value s _ _ Hw Hf ltac:(cbn; unfold d; lra)).
    exists s, (D / d), (d * (8 + 2)), (1 * 0.0254 - d * (8 + 2)),
      (G * d ^ 4 / (8 * D ^ 3 * 8)). eexists.
    split; [exact efunda_steel |].
    split; [exact HC |].
    split; [unfold D, d; apply Rabs_def1; lra |].
    split; [reflexivity |].
    split; [unfold d; lra |].
    split; [reflexivity |].
    split; [unfold d; lra |].
    split; [exact Hk |].
    split; [unfold G, d, D; lra |].
    cbv zeta.
    assert (HD : D = 0.465 * 0.0254) by (unfold D; lra).
    split.
    + unfold rate_formula. fold G. fold d. rewrite <- HD.
      replace (G * d ^ 4 / (8 * D ^ 3 * 8) - G * d ^ 4 / (8 * D ^ 3 * 8))
        with 0 by ring.
      rewrite Rabs_R0. apply Rmult_le_pos; [lra | apply Rabs_pos].
    + split; [exact Htau |].
      match goal with |- Rabs (?a - ?b) <= _ => replace b with a end.
      * match goal with |- Rabs (?a - ?a) <= _ =>
          replace (a - a) with 0 by ring end.
        rewrite Rabs_R0. apply Rmult_le_pos; [lra | apply Rabs_pos].
      * unfold max_shear_formula, wahl_formula, rate_formula.
        fold G. fold d. rewrite <- HD.
        cbn [mean_diameter wire_diameter s].
        replace (0.465 / 0.035) with (D / d) by (unfold D, d; lra).
        replace (0.65 * 0.0254) with (1 * 0.0254 - d * (8 + 2))
          by (unfold d; lra).
        field. pose proof PI_RGT_0. unfold D, d. repeat split; lra.
  - intros m. vm_compute. repeat eexists.
Qed.

(** ** Construction: what is and is not checked *)

(** C2, as the program has it: a name that is not "steel" in any casing does
    not make the construction fail.  [Material.__init__] prints a warning
    and returns an instance with no attribute set; the failure comes later,
    as an [AttributeError], when [shear_modulus] reads the instance. *)
Theorem Material_init_unknown
    {F : Type} {FF : Floating F} {FM : FloatMath F} (name : string) :
  lower name <> STEEL ->
  Material_init (F := F) name =
    (["I am not sure about that material"%string], Ok bare_Material) /\
  shear_modulus (F := F) bare_Material = Raise (AttributeError "youngs_modulus").
Proof.
  intros H. unfold Material_init.
  apply String.eqb_neq in H. rewrite H. split; reflexivity.
Qed.

Lemma Material_init_unknown_witness :
  Material_init (F := R) "brass" =
    (["I am not sure about that material"%string], Ok bare_Material) /\
  shear_modulus (F := R) bare_Material = Raise (AttributeError "youngs_modulus").
Proof.
  apply (@Material_init_unknown R _ _ "brass"). discriminate.
Defined.

(** C2 fails: "brass" is not "steel", and constructing it returns an
    instance instead of raising. *)
Lemma Material_init_brass_returns :
  lower "brass" <> STEEL /\
  returns (snd (Material_init (F := R) "brass")) /\
  ~ raises (snd (Material_init (F := R) "brass")).
Proof.
  split; [discriminate |]. split.
  - exists bare_Material. reflexivity.
  - intros [e He]. discriminate He.
Qed.

(** C4, as the program has it: [Spring.__init__] checks no geometry.  It
    converts its four numbers with [float] and stores them with the
    material: it returns the instance whenever the four conversions return,
    and fails only when one of them does, with the exception of that
    conversion.  Converting a float never fails; converting an int never
    fails in exact arithmetic, and with doubles it fails only with
    [OverflowError], for an int that rounds beyond the largest double, as
    10^400 does. *)
Theorem Spring_init_checks_no_geometry :
  (forall (F : Type) (FF : Floating F) (D d L0 N : number F) (m : Material F),
     (forall x y z t : F,
        to_float D = Ok x -> to_float d = Ok y ->
        to_float L0 = Ok z -> to_float N = Ok t ->
        Spring_init D d L0 N m =
          Ok {| mean_diameter := x; wire_diameter := y; free_length := z;
                num_coils := t; material := m |}) /\
     (forall e : exn,
        Spring_init D d L0 N m = Raise e ->
        to_float D = Raise e \/ to_float d = Raise e \/
        to_float L0 = Raise e \/ to_float N = Raise e)) /\
  (forall (F : Type) (FF : Floating F) (x : F), to_float (Float x) = Ok x) /\
  (forall n : Z, to_float (F := R) (Int n) = Ok (IZR n)) /\
  (forall (n : Z) (e : exn),
     to_float (F := float) (Int n) = Raise e ->
     e = OverflowError /\ PrimFloat.is_infinity (float_of_Z n) = true) /\
  to_float (F := float) (Int (10 ^ 400)) = Raise OverflowError /\
  to_float (F := float) (Int (2 ^ 1023)) = Ok 0x1p+1023%float.
Proof.
  split; [| split; [| split; [| split; [| split]]]].
  - intros F FF D d L0 N m. split.
    + intros x y z t HD Hd HL HN. unfold Spring_init.
      now rewrite HD, Hd, HL, HN.
    + intros e. unfold Spring_init.
      destruct (to_float D) as [x | e1]; cbn [bind]; [| intros [= ->]; auto].
      destruct (to_float d) as [y | e2]; cbn [bind]; [| intros [= ->]; auto].
      destruct (to_float L0) as [z | e3]; cbn [bind]; [| intros [= ->]; auto].
      destruct (to_float N) as [t | e4]; cbn [bind]; [| intros [= ->]; auto].
      discriminate.
  - reflexivity.
  - reflexivity.
  - intros n e.
    change (to_float (F := float) (Int n)) with (binary64_float_of_int n).
    unfold binary64_float_of_int.
    destruct (PrimFloat.is_infinity (float_of_Z n)); [| discriminate].
    intros [= <-]. split; reflexivity.
  - vm_compute. reflexivity.
  - vm_compute. reflexivity.
Qed.

(** A wire as thick as twice the coil, with doubles. *)
Lemma Spring_init_checks_no_geometry_witness :
  Spring_init (F := float) (Int 1) (Int 2) (Float 1%float) (Int 1) bare_Material =
    Ok {| mean_diameter := 1%float; wire_diameter := 2%float;
          free_length := 1%float; num_coils := 1%float;
          material := bare_Material |}.
Proof.
  apply (proj1 (proj1 Spring_init_checks_no_geometry float _
                      (Int 1) (Int 2) (Float 1%float) (Int 1) bare_Material));
    vm_compute; reflexivity.
Defined.

(** C4 fails, with Python's floats and the steel material: a wire thicker
    than the coil (d = 2 >= D = 1), and a spring of negative length and no
    coils, are both constructed. *)
Lemma Spring_init_accepts_bad_geometry :
  exists m : Material float,
    steel64 = Ok m /\
    (PrimFloat.leb 1 2 = true /\
     Spring_init (Int 1) (Int 2) (Int 1) (Int 1) m =
       Ok {| mean_diameter := 1%float; wire_diameter := 2%float;
             free_length := 1%float; num_coils := 1%float;
             material := m |}) /\
    (PrimFloat.leb (-1) 0 = true /\ PrimFloat.leb 0 0 = true /\
     Spring_init (Int 2) (Int 1) (Float (-1)%float) (Int 0) m =
       Ok {| mean_diameter := 2%float; wire_diameter := 1%float;
             free_length := (-1)%float; num_coils := 0%float;
             material := m |}).
Proof. exists_run steel64. by_run. Qed.

(** ** Division by zero and the inputs of [solve_diameter] *)

(** [whal] raises nothing but [ZeroDivisionError]. *)
Lemma whal_raises (s : Spring R) (e : exn) :
  whal s = Raise e -> e = ZeroDivisionError.
Proof.
  unfold whal, spring_index, div. cbn.
  repeat match goal with
         | |- context [Rzero ?x] => destruct (Rzero x); cbn
         end; congruence.
Qed.

(** The fourth root of a negative number is a [ValueError]. *)
Lemma pow_quarter_neg (q : R) : q < 0 -> pow q (lit 0.25) = Raise ValueError.
Proof.
  intros H. rewrite lit_quarter. cbn. unfold R_pow.
  rewrite !Reqb_false by lra. rewrite Rltb_true by lra.
  assert (HI : Int_part (/ 4) = 0%Z) by (symmetry; apply Int_part_spec; lra).
  rewrite Reqb_false; [reflexivity |].
  unfold floor. rewrite HI. lra.
Qed.

(** Division by zero in exact arithmetic.  With a shear modulus G at hand,
    [ZeroDivisionError] is raised by [spring_index], [whal] and [max_shear]
    when d = 0; by [spring_constant], [max_force] and [max_shear] when
    D = 0; by these and [coil_pitch], [rise_angle] and [wire_length] when
    N = 0; by [whal] and [max_shear] when C = 1.  [solve_diameter] raises
    [ZeroDivisionError] when G = 0 and [ValueError] when 8 k N D^3 / G is
    negative, returns 0 when that quantity is 0 (so when k, N or D is 0)
    and a positive diameter otherwise. *)
Lemma zero_division_errors_exact (s : Spring R) (G : R) :
  shear_modulus (material s) = Ok G ->
  (wire_diameter s = 0 ->
     spring_index s = Raise ZeroDivisionError /\
     whal s = Raise ZeroDivisionError /\
     max_shear s = Raise ZeroDivisionError) /\
  (mean_diameter s = 0 ->
     spring_constant s = Raise ZeroDivisionError /\
     max_force s = Raise ZeroDivisionError /\
     max_shear s = Raise ZeroDivisionError) /\
  (num_coils s = 0 ->
     spring_constant s = Raise ZeroDivisionError /\
     coil_pitch s = Raise ZeroDivisionError /\
     rise_angle s = Raise ZeroDivisionError /\
     wire_length s = Raise ZeroDivisionError /\
     max_force s = Raise ZeroDivisionError /\
     max_shear s = Raise ZeroDivisionError) /\
  (spring_index s = Ok 1 ->
     whal s = Raise ZeroDivisionError /\
     max_shear s = Raise ZeroDivisionError) /\
  (forall D N k : R,
     let q := 8 * k * N * D ^ 3 / G in
     (G = 0 -> solve_diameter D N k (material s) = Raise ZeroDivisionError) /\
     (G <> 0 -> q < 0 -> solve_diameter D N k (material s) = Raise ValueError) /\
     (G <> 0 -> q = 0 -> solve_diameter D N k (material s) = Ok 0) /\
     (G <> 0 -> k = 0 \/ N = 0 \/ D = 0 ->
        solve_diameter D N k (material s) = Ok 0) /\
     (G <> 0 -> 0 < q ->
        exists d, solve_diameter D N k (material s) = Ok d /\ 0 < d)).
Proof.
  intros HG.
  assert (Hden0 : mean_diameter s = 0 \/ num_coils s = 0 ->
                  spring_constant s = Raise ZeroDivisionError).
  { intros H0. unfold spring_constant. rewrite HG. cbn [bind].
    rewrite math_pow_4, math_pow_3. cbn [bind]. cbn.
    apply div_by_zero. destruct H0 as [-> | ->]; ring. }
  assert (Hforce : spring_constant s = Raise ZeroDivisionError ->
                   max_force s = Raise ZeroDivisionError).
  { intros H. unfold max_force. now rewrite H. }
  assert (Hshear : whal s = Raise ZeroDivisionError ->
                   max_shear s = Raise ZeroDivisionError).
  { intros H. unfold max_shear. now rewrite H. }
  assert (Hshear' : max_force s = Raise ZeroDivisionError ->
                    max_shear s = Raise ZeroDivisionError).
  { intros H. unfold max_shear. destruct (whal s) as [w | e] eqn:Hw.
    - cbn [bind]. now rewrite H.
    - cbn [bind]. now rewrite (whal_raises s Hw). }
  split; [| split; [| split; [| split]]].
  - intros Hd.
    assert (HC : spring_index s = Raise ZeroDivisionError)
      by (unfold spring_index; now apply div_by_zero).
    assert (Hw : whal s = Raise ZeroDivisionError)
      by (unfold whal; now rewrite HC).
    auto.
  - intros HD. repeat split; auto.
  - intros HN.
    assert (Hp : coil_pitch s = Raise ZeroDivisionError)
      by (unfold coil_pitch; now apply div_by_zero).
    assert (Ha : rise_angle s = Raise ZeroDivisionError)
      by (unfold rise_angle; now rewrite Hp).
    repeat split; auto.
    unfold wire_length. now rewrite Ha.
  - intros HC.
    assert (Hw : whal s = Raise ZeroDivisionError).
    { unfold whal. rewrite HC. cbn [bind]. cbn [of_int add sub mul R_Floating].
      rewrite div_by_zero by lra. reflexivity. }
    auto.
  - intros D N k q.
    split; [| split; [| split; [| split]]].
    + intros ->. unfold solve_diameter. rewrite pow_3. cbn [bind].
      rewrite HG. cbn [bind]. now rewrite div_by_zero.
    + intros HG0 Hq. rewrite (@solve_diameter_unfold D N k G _ HG HG0).
      now apply pow_quarter_neg.
    + intros HG0 Hq. rewrite (@solve_diameter_unfold D N k G _ HG HG0).
      fold q. rewrite Hq. apply pow_0_quarter.
    + intros HG0 Hz. rewrite (@solve_diameter_unfold D N k G _ HG HG0).
      replace (8 * k * N * D ^ 3 / G) with 0; [apply pow_0_quarter |].
      destruct Hz as [-> | [-> | ->]]; field; assumption.
    + intros HG0 Hq. rewrite (@solve_diameter_unfold D N k G _ HG HG0).
      destruct (pow_quarter Hq) as (d & Hd & Hdpos & _). now exists d.
Qed.

(** The steel material has the shear modulus E / 2.6. *)
Lemma shear_modulus_steel :
  shear_modulus steel = Ok (29e6 * 6894.75729 / 2.6).
Proof.
  unfold steel. rewrite (@shear_modulus_valid _ (29e6 * 6894.75729) 0.3);
    try reflexivity; try lra.
  f_equal. lra.
Qed.

(** C3, as the program has it.  There is no DomainError and no check of
    any input: the only such failure is Python's own [ZeroDivisionError],
    raised where a division is reached with a zero divisor.

    - For every float arithmetic: a zero d makes [spring_index], [whal] and
      [max_shear] raise it, and a zero N makes [coil_pitch], [rise_angle]
      and [wire_length] raise it.
    - In exact arithmetic, with a shear modulus at hand: all the cases of
      [zero_division_errors_exact], for D = 0, N = 0, C = 1 and
      [solve_diameter].
    - With doubles and steel: [spring_constant] raises it for D = 0 and for
      N = 0, and [whal] for C = 1, at d = 1; but with D = 0 and d = 1e100
      [math.pow] raises [OverflowError] before the division is reached, and
      [solve_diameter] raises [OverflowError] for D = 1e103 and
      [ValueError] for a negative coil count. *)
Theorem zero_division_errors :
  (forall (F : Type) (FF : Floating F) (FM : FloatMath F) (FT : FloatTrig F)
          (s : Spring F),
     (is_zero (wire_diameter s) = true ->
        spring_index s = Raise ZeroDivisionError /\
        whal s = Raise ZeroDivisionError /\
        max_shear s = Raise ZeroDivisionError) /\
     (is_zero (num_coils s) = true ->
        coil_pitch s = Raise ZeroDivisionError /\
        rise_angle s = Raise ZeroDivisionError /\
        wire_length s = Raise ZeroDivisionError)) /\
  (forall (s : Spring R) (G : R),
     shear_modulus (material s) = Ok G ->
     (wire_diameter s = 0 ->
        spring_index s = Raise ZeroDivisionError /\
        whal s = Raise ZeroDivisionError /\
        max_shear s = Raise ZeroDivisionError) /\
     (mean_diameter s = 0 ->
        spring_constant s = Raise ZeroDivisionError /\
        max_force s = Raise ZeroDivisionError /\
        max_shear s = Raise ZeroDivisionError) /\
     (num_coils s = 0 ->
        spring_constant s = Raise ZeroDivisionError /\
        coil_pitch s = Raise ZeroDivisionError /\
        rise_angle s = Raise ZeroDivisionError /\
        wire_length s = Raise ZeroDivisionError /\
        max_force s = Raise ZeroDivisionError /\
        max_shear s = Raise ZeroDivisionError) /\
     (spring_index s = Ok 1 ->
        whal s = Raise ZeroDivisionError /\
        max_shear s = Raise ZeroDivisionError) /\
     (forall D N k : R,
        let q := 8 * k * N * D ^ 3 / G in
        (G = 0 -> solve_diameter D N k (material s) = Raise ZeroDivisionError) /\
        (G <> 0 -> q < 0 -> solve_diameter D N k (material s) = Raise ValueError) /\
        (G <> 0 -> q = 0 -> solve_diameter D N k (material s) = Ok 0) /\
        (G <> 0 -> k = 0 \/ N = 0 \/ D = 0 ->
           solve_diameter D N k (material s) = Ok 0) /\
        (G <> 0 -> 0 < q ->
           exists d, solve_diameter D N k (material s) = Ok d /\ 0 < d))) /\
  (exists m : Material float,
     steel64 = Ok m /\
     let spring (D d N : float) : Spring float :=
       {| mean_diameter := D; wire_diameter := d; free_length := 1%float;
          num_coils := N; material := m |} in
     spring_constant (spring 0 1 1)%float = Raise ZeroDivisionError /\
     spring_constant (spring 1 1 0)%float = Raise ZeroDivisionError /\
     spring_index (spring 1 1 1)%float = Ok 1%float /\
     whal (spring 1 1 1)%float = Raise ZeroDivisionError /\
     math_pow (lit 1e100) (of_int 4) = Raise OverflowError /\
     spring_constant (spring 0%float (lit 1e100) 1%float) = Raise OverflowError /\
     max_force (spring 0%float (lit 1e100) 1%float) = Raise OverflowError /\
     solve_diameter (lit 1e103) 1%float 1%float m = Raise OverflowError /\
     solve_diameter 1%float (-1)%float 1%float m = Raise ValueError).
Proof.
  split; [| split].
  - intros F FF FM FT s. split.
    + intros Hd.
      assert (HC : spring_index s = Raise ZeroDivisionError)
        by (unfold spring_index, div; now rewrite Hd).
      assert (Hw : whal s = Raise ZeroDivisionError)
        by (unfold whal; now rewrite HC).
      repeat split; try assumption.
      unfold max_shear. now rewrite Hw.
    + intros HN.
      assert (Hp : coil_pitch s = Raise ZeroDivisionError)
        by (unfold coil_pitch, div; now rewrite HN).
      assert (Ha : rise_angle s = Raise ZeroDivisionError)
        by (unfold rise_angle; now rewrite Hp).
      repeat split; try assumption.
      unfold wire_length. now rewrite Ha.
  - exact zero_division_errors_exact.
  - exists_run steel64. by_run.
Qed.

(** The exact part at the steel material, with d = D = N = 0 and with a
    target rate of 0. *)
Lemma zero_division_errors_witness :
  let s := {| mean_diameter := 0; wire_diameter := 0; free_length := 1;
              num_coils := 0; material := steel |} in
  spring_index s = Raise ZeroDivisionError /\
  spring_constant s = Raise ZeroDivisionError /\
  coil_pitch s = Raise ZeroDivisionError /\
  solve_diameter 1 1 0 (material s) = Ok 0.
Proof.
  intros s.
  destruct (proj1 (proj2 zero_division_errors) s _ shear_modulus_steel)
    as (Hd & HD & HN & _ & Hsolve).
  destruct (Hd eq_refl) as (H1 & _).
  destruct (HD eq_refl) as (H2 & _).
  destruct (HN eq_refl) as (_ & H3 & _).
  destruct (Hsolve 1 1 0) as (_ & _ & _ & H4 & _).
  repeat split; try assumption.
  apply H4; [lra | left; reflexivity].
Defined.

(** C3 fails, with Python's floats and steel.  A target rate of 0 violates
    k > 0, and [solve_diameter] returns the diameter 0.0 instead of
    raising; so do a zero coil count and a zero mean diameter, and two
    negative inputs give a positive diameter.  And a value that is not
    finite is returned: with no coils and an infinite mean diameter the
    denominator of the rate is NaN, which is not zero, and
    [spring_constant] returns NaN. *)
Lemma solve_diameter_accepts_bad_inputs :
  exists m : Material float,
    steel64 = Ok m /\
    (PrimFloat.ltb 0 0 = false /\
     solve_diameter 1%float 1%float 0%float m = Ok 0%float) /\
    solve_diameter 1%float 0%float 1%float m = Ok 0%float /\
    solve_diameter 0%float 1%float 1%float m = Ok 0%float /\
    (d <- solve_diameter 1%float (-1)%float (-1)%float m ;;
     Ok (PrimFloat.ltb 0 d)) = Ok true /\
    (k <- spring_constant {| mean_diameter := PrimFloat.infinity;
                             wire_diameter := 1%float; free_length := 1%float;
                             num_coils := 0%float; material := m |} ;;
     Ok (PrimFloat.is_nan k, PrimFloat.is_finite k)) = Ok (true, false).
Proof. exists_run steel64. by_run. Qed.

(** * Further properties of the program *)

(** ** The report *)

(** X1: asked for SI units (the default, in any casing), [print_properties]
    prints the header, if a name is given, and then fails with a
    [TypeError] before any quantity is printed: its first line formats the
    method [outside_diameter] itself, not its value.  This holds for every
    spring and every float arithmetic. *)
Theorem print_properties_si_fails
    {F : Type} {FF : Floating F} {FM : FloatMath F} {FT : FloatTrig F}
    (s : Spring F) (units name : string) :
  lower units = "si"%string ->
  print_properties s units name = (header name, RaisedTypeError).
Proof.
  intros H. unfold print_properties. rewrite H.
  change (String.eqb "en" "si") with false.
  change (String.eqb "si" "si") with true.
  cbn [report_si print_lines]. now rewrite app_nil_r.
Qed.

Lemma print_properties_si_fails_witness :
  print_properties
    {| mean_diameter := 2; wire_diameter := 1; free_length := 10;
       num_coils := 5; material := steel |} "SI" "" =
  ([], RaisedTypeError).
Proof.
  apply (@print_properties_si_fails R _ _ _
           {| mean_diameter := 2; wire_diameter := 1; free_length := 10;
              num_coils := 5; material := steel |} "SI" "").
  reflexivity.
Defined.

(** X2: asked for units that are neither EN nor SI, [print_properties]
    computes nothing: it prints the header and the line 'Units should be
    either SI or EN' and returns, whatever the spring, even one whose
    quantities would all raise. *)
Theorem print_properties_unknown_units
    {F : Type} {FF : Floating F} {FM : FloatMath F} {FT : FloatTrig F}
    (s : Spring F) (units name : string) :
  lower units <> "en"%string -> lower units <> "si"%string ->
  print_properties s units name =
    ((header name ++ [Text "Units should be either SI or EN"])%list, Returned).
Proof.
  intros Hen Hsi. unfold print_properties.
  assert (E1 : String.eqb "en" (lower units) = false)
    by (apply String.eqb_neq; congruence).
  assert (E2 : String.eqb "si" (lower units) = false)
    by (apply String.eqb_neq; congruence).
  now rewrite E1, E2.
Qed.

Lemma print_properties_unknown_units_witness :
  print_properties
    {| mean_diameter := 0; wire_diameter := 0; free_length := 0;
       num_coils := 0; material := bare_Material |} "metric" "x" =
  ([Text "-------------------------------------"; Text "Spring: x";
    Text "-------------------------------------";
    Text "Units should be either SI or EN"], Returned).
Proof.
  apply (@print_properties_unknown_units R _ _ _
           {| mean_diameter := 0; wire_diameter := 0; free_length := 0;
              num_coils := 0; material := bare_Material |} "metric" "x").
  - discriminate.
  - discriminate.
Defined.

(** ** The helix: rise angle and wire length *)

Lemma rise_angle_value (s : Spring R) :
  0 < mean_diameter s -> num_coils s <> 0 ->
  rise_angle s =
    Ok (atan (free_length s / num_coils s / (PI * mean_diameter s))).
Proof.
  intros HD HN. unfold rise_angle, coil_pitch. rewrite div_ok by assumption.
  cbn. unfold R_atan2. pose proof PI_RGT_0.
  now rewrite Rltb_true by (apply Rmult_lt_0_compat; lra).
Qed.




Lemma wire_length_value (s : Spring R) :
  0 < mean_diameter s -> 0 < num_coils s ->
  wire_length s =
    Ok (PI * mean_diameter s *
        (num_coils s *
         R_sqrt.sqrt (1 + (free_length s / num_coils s / (PI * mean_diameter s))²)
         + 2)).
Proof.
  intros HD HN.
  pose proof (Rle_0_sqr (free_length s / num_coils s / (PI * mean_diameter s))) as Hx.
  assert (Hs : 0 < R_sqrt.sqrt
                     (1 + (free_length s / num_coils s / (PI * mean_diameter s))²))
    by (apply sqrt_lt_R0; lra).
  unfold wire_length. rewrite rise_angle_value by lra. cbn [bind].
  cbn [math_cos R_FloatTrig]. rewrite cos_atan.
  rewrite div_ok.
  - cbn. f_equal. field. lra.
  - unfold Rdiv. rewrite Rmult_1_l. apply Rinv_neq_0_compat. lra.
Qed.



(** ** Rate and force of a valid spring *)

Lemma valid_spring_rate (s : Spring R) :
  valid_geometry s -> valid_material (material s) ->
  exists G k : R,
    shear_modulus (material s) = Ok G /\ 0 < G /\
    spring_constant s = Ok k /\ 0 < k /\
    k = G * wire_diameter s ^ 4 / (8 * mean_diameter s ^ 3 * num_coils s) /\
    max_force s =
      Ok (k * (free_length s - wire_diameter s * (num_coils s + 2))).
Proof.
  intros (HD & Hd & Hlt & HL & HN) (E & nu & HE & Hnu & HEpos & Hnupos).
  assert (HG : shear_modulus (material s) = Ok (E / (2 * (1 + nu))))
    by (apply shear_modulus_valid; auto; lra).
  assert (HGpos : 0 < E / (2 * (1 + nu)))
    by (apply Rdiv_lt_0_compat; lra).
  pose proof (@spring_constant_value s _ HG ltac:(lra) ltac:(lra)) as Hk.
  assert (Hkpos : 0 < E / (2 * (1 + nu)) * wire_diameter s ^ 4 /
                      (8 * mean_diameter s ^ 3 * num_coils s)).
  { assert (0 < wire_diameter s ^ 4) by (apply pow_lt; lra).
    assert (0 < mean_diameter s ^ 3) by (apply pow_lt; lra).
    apply Rdiv_lt_0_compat.
    - apply Rmult_lt_0_compat; lra.
    - apply Rmult_lt_0_compat; [apply Rmult_lt_0_compat |]; lra. }
  eexists _, _. split; [exact HG |]. split; [exact HGpos |].
  split; [exact Hk |]. split; [exact Hkpos |]. split; [reflexivity |].
  unfold max_force, solid_height. rewrite Hk. reflexivity.
Qed.

(** ** The report in inches and pounds *)

Lemma lit_lbf : @u.lbf R _ = 4.44822.
Proof. unfold u.lbf. cbn. unfold Q2R. simpl. lra. Qed.

Lemma lit_ksi : @u.ksi R _ = 6.89475908677537e6.
Proof. unfold u.ksi. cbn. unfold Q2R. simpl. lra. Qed.

Lemma lit_180 : lit 180.0 = 180.
Proof. cbn. unfold Q2R. simpl. lra. Qed.

(** X5, in exact arithmetic: for a spring of valid geometry and material,
    the EN report (any casing of 'en') does not fail and prints, after the
    header, fifteen lines in a fixed order, each holding the value the
    method of that quantity returns, divided by the unit it is shown in:
    lengths by [u.inch], the rate by [u.lbf] per [u.inch], the force by
    [u.lbf], the stress by [u.ksi], the angle turned to degrees.

    With doubles the report does not return for every such spring: for the
    valid geometry D = 1e103, d = 1e102 and steel it prints the six lines
    before the rate and then fails with the [OverflowError] of
    [spring_constant], whatever [atan2] and [cos] are. *)
Theorem print_properties_en :
  (forall (s : Spring R) (units name : string),
     lower units = "en"%string ->
     valid_geometry s -> valid_material (material s) ->
     exists k C f t a l : R,
       spring_constant s = Ok k /\ spring_index s = Ok C /\
       max_force s = Ok f /\ max_shear s = Ok t /\
       rise_angle s = Ok a /\ wire_length s = Ok l /\
       print_properties s units name =
         ((header name ++
           [Formatted "Outer diameter       :%.3f in"
              ((mean_diameter s + wire_diameter s) / 0.0254);
            Formatted "Mean diameter        :%.3f in" (mean_diameter s / 0.0254);
            Formatted "Inside diameter      :%.3f in"
              ((mean_diameter s - wire_diameter s) / 0.0254);
            Formatted "Wire diameter        :%.3f in" (wire_diameter s / 0.0254);
            Formatted "Free length          :%.3f in" (free_length s / 0.0254);
            Formatted "Number of coils      :%.1f " (num_coils s);
            Formatted "Spring constant      :%.2e lbf/in" (k / 4.44822 * 0.0254);
            Formatted "Spring index [5-15]  :%.1f" C;
            Formatted "Max force possible   :%.2e lbf" (f / 4.44822);
            Formatted "Max shear stress     :%.2e ksi" (t / 6.89475908677537e6);
            Formatted "Solid height         :%.3f in"
              (wire_diameter s * (num_coils s + 2) / 0.0254);
            Formatted "Max displacement     :%.3f in"
              ((free_length s - wire_diameter s * (num_coils s + 2)) / 0.0254);
            Formatted "Coil pitch           :%.3f in per coil "
              (free_length s / num_coils s / 0.0254);
            Formatted "Rise angle           :%.2f deg" (a * 180 / PI);
            Formatted "Spring wire length   :%.3f in" (l / 0.0254)])%list,
          Returned)) /\
  (forall FT : FloatTrig float,
   exists m : Material float,
     steel64 = Ok m /\ valid_material64 m = true /\
     let s := {| mean_diameter := lit 1e103; wire_diameter := lit 1e102;
                 free_length := 1%float; num_coils := 1%float;
                 material := m |} in
     valid_geometry64 s = true /\
     print_properties s "en" "" =
       ([Formatted "Outer diameter       :%.3f in"
           (quot (mean_diameter s + wire_diameter s) u.inch);
         Formatted "Mean diameter        :%.3f in"
           (quot (mean_diameter s) u.inch);
         Formatted "Inside diameter      :%.3f in"
           (quot (mean_diameter s - wire_diameter s) u.inch);
         Formatted "Wire diameter        :%.3f in"
           (quot (wire_diameter s) u.inch);
         Formatted "Free length          :%.3f in"
           (quot (free_length s) u.inch);
         Formatted "Number of coils      :%.1f " (num_coils s)]%py,
        Raised OverflowError)).
Proof.
  split.
  { intros s units name.
    intros Hu Hgeo Hmat.
    destruct (valid_spring_rate Hgeo Hmat)
      as (G & k & _ & _ & Hk & _ & _ & Hf).
    destruct Hgeo as (HD & Hd & Hlt & HL & HN).
    assert (HC : spring_index s = Ok (mean_diameter s / wire_diameter s))
      by (unfold spring_index; apply div_ok; lra).
    assert (HC1 : 1 < mean_diameter s / wire_diameter s).
    { apply Rmult_lt_reg_r with (wire_diameter s); [assumption |].
      unfold Rdiv. rewrite Rmult_assoc, Rinv_l by lra. lra. }
    assert (Hw := @whal_value s _ HC ltac:(lra) ltac:(lra)).
    assert (Ht := @max_shear_value s _ _ Hw Hf ltac:(lra)).
    assert (Ha := @rise_angle_value s HD ltac:(lra)).
    assert (Hl := @wire_length_value s HD ltac:(lra)).
    assert (Hp : coil_pitch s = Ok (free_length s / num_coils s))
      by (unfold coil_pitch; apply div_ok; lra).
    eexists _, _, _, _, _, _.
    repeat (split; [eassumption |]).
    unfold print_properties. rewrite Hu.
    change (String.eqb "en" "en") with true. cbv match.
    unfold report_en. rewrite Hk, HC, Hf, Ht, Ha, Hl, Hp.
    unfold max_displacement. unfold outside_diameter, inside_diameter, solid_height.
    rewrite lit_inch, lit_lbf, lit_ksi, lit_180.
    pose proof PI_RGT_0 as Hpi.
    cbn [bind pi R_FloatMath add sub mul of_int R_Floating].
    repeat (rewrite div_ok by lra; cbn [bind]).
    cbn [number_of bind print_lines]. reflexivity. }
  { intros FT. exists_run steel64. by_run. }
Qed.

(** The call of the [__main__] block: the efunda spring, 'En', 'efunda'. *)
Lemma print_properties_en_witness :
  let s := {| mean_diameter := (0.5 - 0.035) * 0.0254;
              wire_diameter := 0.035 * 0.0254;
              free_length := 1 * 0.0254;
              num_coils := 8;
              material := steel |} in
  exists k C f t a l : R,
    spring_constant s = Ok k /\ spring_index s = Ok C /\
    max_force s = Ok f /\ max_shear s = Ok t /\
    rise_angle s = Ok a /\ wire_length s = Ok l /\
    print_properties s "En" "efunda" =
      ((header "efunda" ++
        [Formatted "Outer diameter       :%.3f in"
           ((mean_diameter s + wire_diameter s) / 0.0254);
         Formatted "Mean diameter        :%.3f in" (mean_diameter s / 0.0254);
         Formatted "Inside diameter      :%.3f in"
           ((mean_diameter s - wire_diameter s) / 0.0254);
         Formatted "Wire diameter        :%.3f in" (wire_diameter s / 0.0254);
         Formatted "Free length          :%.3f in" (free_length s / 0.0254);
         Formatted "Number of coils      :%.1f " (num_coils s);
         Formatted "Spring constant      :%.2e lbf/in" (k / 4.44822 * 0.0254);
         Formatted "Spring index [5-15]  :%.1f" C;
         Formatted "Max force possible   :%.2e lbf" (f / 4.44822);
         Formatted "Max shear stress     :%.2e ksi" (t / 6.89475908677537e6);
         Formatted "Solid height         :%.3f in"
           (wire_diameter s * (num_coils s + 2) / 0.0254);
         Formatted "Max displacement     :%.3f in"
           ((free_length s - wire_diameter s * (num_coils s + 2)) / 0.0254);
         Formatted "Coil pitch           :%.3f in per coil "
           (free_length s / num_coils s / 0.0254);
         Formatted "Rise angle           :%.2f deg" (a * 180 / PI);
         Formatted "Spring wire length   :%.3f in" (l / 0.0254)])%list,
       Returned).
Proof.
  intros s.
  apply (proj1 print_properties_en s "En"%string "efunda"%string).
  - reflexivity.
  - unfold valid_geometry, s. simpl. lra.
  - exists (29e6 * 6894.75729), 0.3. simpl. repeat split; lra.
Defined.

(** X6: on a spring whose material is the attribute-less instance an
    unknown material name constructs, the EN report prints the header and
    the six lines that need no material (five lengths and the coil count),
    then fails with [AttributeError] at the spring constant; this needs no
    condition on the geometry. *)
Theorem print_properties_en_bare_material
    (s : Spring R) (units name : string) :
  lower units = "en"%string ->
  material s = bare_Material ->
  print_properties s units name =
    ((header name ++
      [Formatted "Outer diameter       :%.3f in"
         ((mean_diameter s + wire_diameter s) / 0.0254);
       Formatted "Mean diameter        :%.3f in" (mean_diameter s / 0.0254);
       Formatted "Inside diameter      :%.3f in"
         ((mean_diameter s - wire_diameter s) / 0.0254);
       Formatted "Wire diameter        :%.3f in" (wire_diameter s / 0.0254);
       Formatted "Free length          :%.3f in" (free_length s / 0.0254);
       Formatted "Number of coils      :%.1f " (num_coils s)])%list,
     Raised (AttributeError "youngs_modulus")).
Proof.
  intros Hu Hm.
  assert (Hk : spring_constant s = Raise (AttributeError "youngs_modulus"))
    by (unfold spring_constant; rewrite Hm; reflexivity).
  unfold print_properties. rewrite Hu.
  change (String.eqb "en" "en") with true. cbv match.
  unfold report_en. rewrite Hk.
  unfold outside_diameter, inside_diameter.
  rewrite lit_inch.
  cbn [bind add sub R_Floating].
  repeat (rewrite div_ok by lra; cbn [bind]).
  cbn [number_of bind print_lines]. reflexivity.
Qed.

Lemma print_properties_en_bare_material_witness :
  let s := {| mean_diameter := 0; wire_diameter := 0; free_length := 0;
              num_coils := 0; material := bare_Material |} in
  print_properties s "EN" "" =
    ([Formatted "Outer diameter       :%.3f in" ((0 + 0) / 0.0254);
      Formatted "Mean diameter        :%.3f in" (0 / 0.0254);
      Formatted "Inside diameter      :%.3f in" ((0 - 0) / 0.0254);
      Formatted "Wire diameter        :%.3f in" (0 / 0.0254);
      Formatted "Free length          :%.3f in" (0 / 0.0254);
      Formatted "Number of coils      :%.1f " 0],
     Raised (AttributeError "youngs_modulus")).
Proof.
  intros s.
  apply (@print_properties_en_bare_material s "EN" ""); reflexivity.
Defined.

(** ** More on the inverse design *)

Lemma pow_quarter_of_fourth_power (d : R) :
  0 < d -> pow (d ^ 4) (lit 0.25) = Ok d.
Proof.
  intros Hd. rewrite lit_quarter.
  rewrite pow_pos_base by (try apply pow_lt; lra).
  rewrite <- Rpower_4 by assumption. rewrite Rpower_mult.
  replace (4 * / 4) with 1 by lra. now rewrite Rpower_1.
Qed.

(** X7, in exact arithmetic: [solve_diameter] is also a left inverse of
    [spring_constant]: for a spring of valid geometry and material, asking
    for the rate the spring has, with its D, N and material, gives back its
    wire diameter.

    With doubles it does not for every such spring: for D = 1, d = 1e-100,
    N = 1 and steel the fourth power of d underflows, the rate is 0.0, and
    [solve_diameter] gives back 0.0, not d. *)
Theorem solve_diameter_left_inverse :
  (forall (s : Spring R),
     valid_geometry s -> valid_material (material s) ->
     exists k : R,
       spring_constant s = Ok k /\
       solve_diameter (mean_diameter s) (num_coils s) k (material s)
         = Ok (wire_diameter s)) /\
  (exists m : Material float,
     steel64 = Ok m /\ valid_material64 m = true /\
     let s := {| mean_diameter := 1%float; wire_diameter := lit 1e-100;
                 free_length := 1%float; num_coils := 1%float;
                 material := m |} in
     valid_geometry64 s = true /\
     math_pow (wire_diameter s) (of_int 4) = Ok 0%float /\
     spring_constant s = Ok 0%float /\
     solve_diameter (mean_diameter s) (num_coils s) 0%float m = Ok 0%float /\
     PrimFloat.ltb 0 (wire_diameter s) = true).
Proof.
  split.
  { intros s.
    intros Hgeo Hmat.
    destruct (valid_spring_rate Hgeo Hmat)
      as (G & k & HG & HGpos & Hk & _ & Hkeq & _).
    destruct Hgeo as (HD & Hd & _ & _ & HN).
    exists k. split; [exact Hk |].
    rewrite (@solve_diameter_unfold _ _ k G _ HG) by lra.
    replace (8 * k * num_coils s * mean_diameter s ^ 3 / G)
      with (wire_diameter s ^ 4).
    - now apply pow_quarter_of_fourth_power.
    - rewrite Hkeq. field. repeat split; lra. }
  { exists_run steel64. by_run. }
Qed.

Lemma solve_diameter_left_inverse_witness :
  let s := {| mean_diameter := 0.465 * 0.0254;
              wire_diameter := 0.035 * 0.0254;
              free_length := 0.0254; num_coils := 8;
              material := steel |} in
  exists k : R,
    spring_constant s = Ok k /\
    solve_diameter (mean_diameter s) (num_coils s) k (material s)
      = Ok (wire_diameter s).
Proof.
  intros s. apply (proj1 solve_diameter_left_inverse s).
  - unfold valid_geometry, s. simpl. lra.
  - exists (29e6 * 6894.75729), 0.3. simpl. repeat split; lra.
Defined.

(** X8, in exact arithmetic: with D > 0, N > 0 and a material of positive
    shear modulus, a greater positive target rate makes [solve_diameter]
    return a strictly greater wire diameter, and both are positive.

    With doubles the diameter is neither always positive nor strictly
    increasing: for steel, D = 1e-10 and N = 1 the rates 1e-300 and 2e-300
    both give 0.0 (the product underflows), and for D = N = 1 the two
    doubles that follow 1.0 give the same diameter. *)
Theorem solve_diameter_increasing :
  (forall (D N G k1 k2 : R) (mat : Material R),
     0 < D -> 0 < N -> shear_modulus mat = Ok G -> 0 < G ->
     0 < k1 -> k1 < k2 ->
     exists d1 d2 : R,
       solve_diameter D N k1 mat = Ok d1 /\
       solve_diameter D N k2 mat = Ok d2 /\
       0 < d1 /\ d1 < d2) /\
  (exists m : Material float,
     steel64 = Ok m /\
     (G <- shear_modulus m ;; Ok (PrimFloat.ltb 0 G)) = Ok true /\
     (PrimFloat.ltb 0 (lit 1e-10) = true /\
      PrimFloat.ltb 0 (lit 1e-300) = true /\
      PrimFloat.ltb (lit 1e-300) (lit 2e-300) = true /\
      solve_diameter (lit 1e-10) 1%float (lit 1e-300) m = Ok 0%float /\
      solve_diameter (lit 1e-10) 1%float (lit 2e-300) m = Ok 0%float) /\
     (let k1 := PrimFloat.next_up 1 in
      let k2 := PrimFloat.next_up k1 in
      PrimFloat.ltb 0 k1 = true /\ PrimFloat.ltb k1 k2 = true /\
      (d <- solve_diameter 1%float 1%float k1 m ;; Ok (PrimFloat.ltb 0 d))
        = Ok true /\
      solve_diameter 1%float 1%float k1 m =
        solve_diameter 1%float 1%float k2 m)).
Proof.
  split.
  { intros D N G k1 k2 mat.
    intros HD HN HG HGpos Hk1 Hk.
    assert (HD3 : 0 < D ^ 3) by (apply pow_lt; lra).
    assert (Hc : 0 < 8 * N * D ^ 3 / G).
    { apply Rdiv_lt_0_compat; [| assumption].
      apply Rmult_lt_0_compat; [apply Rmult_lt_0_compat |]; lra. }
    assert (Hq : forall k, 8 * k * N * D ^ 3 / G = k * (8 * N * D ^ 3 / G))
      by (intros k; field; lra).
    assert (Hq1 : 0 < 8 * k1 * N * D ^ 3 / G)
      by (rewrite Hq; apply Rmult_lt_0_compat; lra).
    assert (Hq12 : 8 * k1 * N * D ^ 3 / G < 8 * k2 * N * D ^ 3 / G)
      by (rewrite !Hq; apply Rmult_lt_compat_r; lra).
    exists (Rpower (8 * k1 * N * D ^ 3 / G) (/ 4)),
      (Rpower (8 * k2 * N * D ^ 3 / G) (/ 4)).
    rewrite !(@solve_diameter_unfold D N _ G mat HG) by lra.
    rewrite lit_quarter. rewrite !pow_pos_base by lra.
    split; [reflexivity | split; [reflexivity | split]].
    - apply Rpower_pos.
    - apply Rlt_Rpower_l; lra. }
  { exists_run steel64. by_run. }
Qed.

Lemma solve_diameter_increasing_witness :
  exists d1 d2 : R,
    solve_diameter (0.465 * 0.0254) 12 400 steel = Ok d1 /\
    solve_diameter (0.465 * 0.0254) 12 500 steel = Ok d2 /\
    0 < d1 /\ d1 < d2.
Proof.
  apply (proj1 solve_diameter_increasing
           (0.465 * 0.0254) 12 (29e6 * 6894.75729 / 2.6) 400 500 steel);
    try lra.
  apply shear_modulus_steel.
Defined.

(** ** Scaling *)

(** X9, in exact arithmetic: the rate follows d^4 / (D^3 N).  Multiplying
    the wire diameter by a, the mean diameter by b and the coil count by c
    (all positive) multiplies the [spring_constant] of a valid spring by
    a^4 / (b^3 c); so twice the wire diameter gives sixteen times the rate.

    With doubles this fails where a power underflows: for D = 1,
    d = 1e-100, N = 1 and steel the rate is 0.0, while the spring with the
    wire diameter multiplied by a = 1e50 has a positive rate, which is not
    0.0 times a^4. *)
Theorem spring_constant_scaling :
  (forall (s : Spring R) (a b c : R),
     valid_geometry s -> valid_material (material s) ->
     0 < a -> 0 < b -> 0 < c ->
     exists k : R,
       spring_constant s = Ok k /\
       spring_constant
         {| mean_diameter := b * mean_diameter s;
            wire_diameter := a * wire_diameter s;
            free_length := free_length s;
            num_coils := c * num_coils s;
            material := material s |}
         = Ok (k * (a ^ 4 / (b ^ 3 * c)))) /\
  (exists m : Material float,
     steel64 = Ok m /\ valid_material64 m = true /\
     let s := {| mean_diameter := 1%float; wire_diameter := lit 1e-100;
                 free_length := 1%float; num_coils := 1%float;
                 material := m |} in
     let a := lit 1e50 in
     let s' := {| mean_diameter := 1 * mean_diameter s;
                  wire_diameter := a * wire_diameter s;
                  free_length := free_length s;
                  num_coils := 1 * num_coils s;
                  material := m |}%float in
     valid_geometry64 s = true /\ PrimFloat.ltb 0 a = true /\
     spring_constant s = Ok 0%float /\
     (0 * (a * a * a * a / (1 * 1 * 1 * 1)))%float = 0%float /\
     (k' <- spring_constant s' ;; Ok (PrimFloat.ltb 0 k')) = Ok true).
Proof.
  split.
  { intros s a b c.
    intros Hgeo Hmat Ha Hb Hc.
    destruct (valid_spring_rate Hgeo Hmat)
      as (G & k & HG & HGpos & Hk & _ & Hkeq & _).
    destruct Hgeo as (HD & Hd & _ & _ & HN).
    exists k. split; [exact Hk |].
    rewrite (@spring_constant_value _ G); cbn [mean_diameter wire_diameter
      num_coils material]; try assumption.
    - f_equal. rewrite Hkeq. field. repeat split; lra.
    - apply Rmult_integral_contrapositive_currified; lra.
    - apply Rmult_integral_contrapositive_currified; lra. }
  { exists_run steel64. by_run. }
Qed.

Lemma spring_constant_scaling_witness :
  let s := {| mean_diameter := 0.465 * 0.0254;
              wire_diameter := 0.035 * 0.0254;
              free_length := 0.0254; num_coils := 8;
              material := steel |} in
  exists k : R,
    spring_constant s = Ok k /\
    spring_constant
      {| mean_diameter := 1 * mean_diameter s;
         wire_diameter := 2 * wire_diameter s;
         free_length := free_length s;
         num_coils := 1 * num_coils s;
         material := material s |}
      = Ok (k * (2 ^ 4 / (1 ^ 3 * 1))).
Proof.
  intros s. apply (proj1 spring_constant_scaling s 2 1 1); try lra.
  - unfold valid_geometry, s. simpl. lra.
  - exists (29e6 * 6894.75729), 0.3. simpl. repeat split; lra.
Defined.

(** [R_atan2] depends only on the direction of the point. *)
Lemma R_atan2_scale (y x c : R) : 0 < c -> 0 < x ->
  R_atan2 (c * y) (c * x) = R_atan2 y x.
Proof.
  intros Hc Hx. unfold R_atan2.
  rewrite !Rltb_true by (try apply Rmult_lt_0_compat; lra).
  f_equal. field. lra.
Qed.

(** X10, in exact arithmetic: the unit of length does not matter.
    Multiplying D, d and L0 of a valid spring by the same c > 0 leaves
    [spring_index], [whal], [rise_angle] and the stress [max_shear]
    unchanged, multiplies [spring_constant] by c and [max_force] by c^2.

    With doubles the quantities are unchanged only up to rounding: for
    D = 0.465, d = 0.035, L0 = 1, N = 8 and c = 1000 the index of the
    scaled spring is greater and its Wahl factor smaller. *)
Theorem length_unit_invariance :
  (forall (s : Spring R) (c : R),
     valid_geometry s -> valid_material (material s) -> 0 < c ->
     let s' := {| mean_diameter := c * mean_diameter s;
                  wire_diameter := c * wire_diameter s;
                  free_length := c * free_length s;
                  num_coils := num_coils s;
                  material := material s |} in
     spring_index s' = spring_index s /\
     whal s' = whal s /\
     rise_angle s' = rise_angle s /\
     max_shear s' = max_shear s /\
     exists k f : R,
       spring_constant s = Ok k /\ spring_constant s' = Ok (c * k) /\
       max_force s = Ok f /\ max_force s' = Ok (c ^ 2 * f)) /\
  (exists m : Material float,
     steel64 = Ok m /\ valid_material64 m = true /\
     let s := {| mean_diameter := lit 0.465; wire_diameter := lit 0.035;
                 free_length := 1%float; num_coils := 8%float;
                 material := m |} in
     let c := lit 1000.0 in
     let s' := {| mean_diameter := c * mean_diameter s;
                  wire_diameter := c * wire_diameter s;
                  free_length := c * free_length s;
                  num_coils := num_coils s;
                  material := m |}%float in
     valid_geometry64 s = true /\ PrimFloat.ltb 0 c = true /\
     (C <- spring_index s ;; C' <- spring_index s' ;;
      Ok (PrimFloat.ltb C C')) = Ok true /\
     (w <- whal s ;; w' <- whal s' ;; Ok (PrimFloat.ltb w' w)) = Ok true).
Proof.
  split.
  { intros s c.
    intros Hgeo Hmat Hc s'.
    destruct (valid_spring_rate Hgeo Hmat)
      as (G & k & HG & HGpos & Hk & _ & Hkeq & Hf).
    destruct Hgeo as (HD & Hd & Hlt & HL & HN).
    assert (HC : spring_index s = Ok (mean_diameter s / wire_diameter s))
      by (unfold spring_index; apply div_ok; lra).
    assert (HC' : spring_index s' = spring_index s).
    { rewrite HC. unfold spring_index, s'. cbn [mean_diameter wire_diameter].
      rewrite div_ok by (apply Rmult_integral_contrapositive_currified; lra).
      f_equal. field. lra. }
    assert (Hw' : whal s' = whal s) by (unfold whal; now rewrite HC').
    assert (Hk' : spring_constant s' = Ok (c * k)).
    { unfold s'. rewrite (@spring_constant_value _ G);
        cbn [mean_diameter wire_diameter num_coils material]; try assumption;
        try lra.
      - f_equal. rewrite Hkeq. field. repeat split; lra.
      - apply Rmult_integral_contrapositive_currified; lra. }
    assert (Hf' : max_force s' =
                  Ok (c ^ 2 * (k * (free_length s
                                    - wire_diameter s * (num_coils s + 2))))).
    { unfold max_force, solid_height. rewrite Hk'. unfold s'. cbn. f_equal. ring. }
    assert (HC1 : 1 < mean_diameter s / wire_diameter s).
    { apply Rmult_lt_reg_r with (wire_diameter s); [assumption |].
      unfold Rdiv. rewrite Rmult_assoc, Rinv_l by lra. lra. }
    assert (Hw := @whal_value s _ HC ltac:(lra) ltac:(lra)).
    split; [exact HC' | split; [exact Hw' | split; [| split]]].
    - pose proof PI_RGT_0 as Hpi.
      unfold rise_angle, coil_pitch, s'.
      cbn [free_length num_coils mean_diameter].
      rewrite !div_ok by lra. cbn. f_equal.
      replace (c * free_length s / num_coils s)
        with (c * (free_length s / num_coils s)) by (field; lra).
      replace (PI * (c * mean_diameter s)) with (c * (PI * mean_diameter s))
        by ring.
      apply R_atan2_scale; [assumption |]. apply Rmult_lt_0_compat; lra.
    - rewrite Hw in Hw'.
      rewrite (@max_shear_value s' _ _ Hw' Hf')
        by (unfold s'; cbn; apply Rmult_integral_contrapositive_currified; lra).
      rewrite (@max_shear_value s _ _ Hw Hf) by lra.
      f_equal. unfold s'. cbn [mean_diameter wire_diameter].
      pose proof PI_RGT_0 as Hpi. field. repeat split; lra.
    - eexists _, _. split; [exact Hk |]. split; [exact Hk' |].
      split; [exact Hf | exact Hf']. }
  { exists_run steel64. by_run. }
Qed.

Lemma length_unit_invariance_witness :
  let s := {| mean_diameter := 0.465; wire_diameter := 0.035;
              free_length := 1; num_coils := 8; material := steel |} in
  let s' := {| mean_diameter := 0.0254 * mean_diameter s;
               wire_diameter := 0.0254 * wire_diameter s;
               free_length := 0.0254 * free_length s;
               num_coils := num_coils s;
               material := material s |} in
  spring_index s' = spring_index s /\
  whal s' = whal s /\
  rise_angle s' = rise_angle s /\
  max_shear s' = max_shear s /\
  exists k f : R,
    spring_constant s = Ok k /\ spring_constant s' = Ok (0.0254 * k) /\
    max_force s = Ok f /\ max_force s' = Ok (0.0254 ^ 2 * f).
Proof.
  intros s.
  apply (proj1 length_unit_invariance s 0.0254); try lra.
  - unfold valid_geometry, s. simpl. lra.
  - exists (29e6 * 6894.75729), 0.3. simpl. repeat split; lra.
Defined.

(** ** The Wahl factor decreases *)

(** X11, in exact arithmetic: the correction gets smaller as the index
    grows: of two springs with indexes 1 < C1 < C2, the second has the
    smaller Wahl factor, and both factors are above 1.

    With doubles the factor is not strictly decreasing, nor always above
    1: the indexes 9 and the double that follows 9 have the same factor,
    and the indexes 1e17 and 2e17 both have the factor 1.0. *)
Theorem whal_decreasing :
  (forall (s1 s2 : Spring R) (C1 C2 : R),
     spring_index s1 = Ok C1 -> spring_index s2 = Ok C2 ->
     1 < C1 -> C1 < C2 ->
     exists w1 w2 : R,
       whal s1 = Ok w1 /\ whal s2 = Ok w2 /\ 1 < w2 /\ w2 < w1) /\
  (let spring (D : float) : Spring float :=
     {| mean_diameter := D; wire_diameter := 1%float; free_length := 1%float;
        num_coils := 1%float; material := bare_Material |} in
   (let C1 := 9%float in
    let C2 := PrimFloat.next_up 9 in
    spring_index (spring C1) = Ok C1 /\ spring_index (spring C2) = Ok C2 /\
    PrimFloat.ltb 1 C1 = true /\ PrimFloat.ltb C1 C2 = true /\
    (w <- whal (spring C1) ;; Ok (PrimFloat.ltb 1 w)) = Ok true /\
    whal (spring C1) = whal (spring C2)) /\
   (spring_index (spring 1e17%float) = Ok 1e17%float /\
    spring_index (spring (lit 2e17)) = Ok (lit 2e17) /\
    PrimFloat.ltb 1e17 (lit 2e17) = true /\
    whal (spring 1e17%float) = Ok 1%float /\
    whal (spring (lit 2e17)) = Ok 1%float)).
Proof.
  split.
  { intros s1 s2 C1 C2.
    intros H1 H2 Hgt Hlt.
    exists ((4 * C1 - 1) / (4 * C1 - 4) + 0.615 / C1),
      ((4 * C2 - 1) / (4 * C2 - 4) + 0.615 / C2).
    split; [apply whal_value; auto; lra |].
    split; [apply whal_value; auto; lra |].
    split; [apply wahl_above_1; lra |].
    assert (Ha : (4 * C2 - 1) / (4 * C2 - 4) < (4 * C1 - 1) / (4 * C1 - 4)).
    { apply Rlt_0_minus.
      replace ((4 * C1 - 1) / (4 * C1 - 4) - (4 * C2 - 1) / (4 * C2 - 4))
        with (12 * (C2 - C1) / ((4 * C1 - 4) * (4 * C2 - 4)))
        by (field; lra).
      apply Rdiv_lt_0_compat; [lra |]. apply Rmult_lt_0_compat; lra. }
    assert (Hb : 0.615 / C2 < 0.615 / C1).
    { apply Rlt_0_minus.
      replace (0.615 / C1 - 0.615 / C2) with (0.615 * (C2 - C1) / (C1 * C2))
        by (field; lra).
      apply Rdiv_lt_0_compat; [| apply Rmult_lt_0_compat; lra].
      apply Rmult_lt_0_compat; lra. }
    lra. }
  { by_run. }
Qed.

Lemma whal_decreasing_witness :
  exists w1 w2 : R,
    whal {| mean_diameter := 4; wire_diameter := 1; free_length := 10;
            num_coils := 5; material := steel |} = Ok w1 /\
    whal {| mean_diameter := 12; wire_diameter := 1; free_length := 10;
            num_coils := 5; material := steel |} = Ok w2 /\
    1 < w2 /\ w2 < w1.
Proof.
  apply (proj1 whal_decreasing
           {| mean_diameter := 4; wire_diameter := 1; free_length := 10;
              num_coils := 5; material := steel |}
           {| mean_diameter := 12; wire_diameter := 1; free_length := 10;
              num_coils := 5; material := steel |} 4 12); try lra.
  - unfold spring_index. cbn [mean_diameter wire_diameter].
    rewrite div_ok by lra. f_equal. lra.
  - unfold spring_index. cbn [mean_diameter wire_diameter].
    rewrite div_ok by lra. f_equal. lra.
Defined.

(** ** The force at solid height has the sign of the travel *)

(** X12, in exact arithmetic: valid geometry does not make the free length
    exceed the solid height, and nothing is clamped.  For a spring of valid
    geometry and material the rate is positive, solid height plus greatest
    displacement is the free length, and [max_force] is positive, zero or
    negative as the free length is above, at or below the solid height
    d (N + 2).

    With doubles the rate of such a spring can be 0.0, and the force with
    it: for D = 1, d = 1e-100, L0 = 1, N = 1 and steel both are 0.0 though
    the solid height is below the free length. *)
Theorem max_force_sign :
  (forall (s : Spring R),
     valid_geometry s -> valid_material (material s) ->
     exists k h x f : R,
       spring_constant s = Ok k /\ 0 < k /\
       solid_height s = Ok h /\ max_displacement s = Ok x /\
       h + x = free_length s /\
       max_force s = Ok f /\ f = k * x /\
       (0 < f <-> h < free_length s) /\
       (f = 0 <-> h = free_length s) /\
       (f < 0 <-> free_length s < h)) /\
  (exists m : Material float,
     steel64 = Ok m /\ valid_material64 m = true /\
     let s := {| mean_diameter := 1%float; wire_diameter := lit 1e-100;
                 free_length := 1%float; num_coils := 1%float;
                 material := m |} in
     valid_geometry64 s = true /\
     spring_constant s = Ok 0%float /\ max_force s = Ok 0%float /\
     (h <- solid_height s ;; Ok (PrimFloat.ltb h (free_length s))) = Ok true).
Proof.
  split.
  { intros s.
    intros Hgeo Hmat.
    destruct (valid_spring_rate Hgeo Hmat)
      as (G & k & _ & _ & Hk & Hkpos & _ & Hf).
    exists k, (wire_diameter s * (num_coils s + 2)),
      (free_length s - wire_diameter s * (num_coils s + 2)),
      (k * (free_length s - wire_diameter s * (num_coils s + 2))).
    split; [exact Hk |]. split; [exact Hkpos |].
    split; [reflexivity |]. split; [reflexivity |].
    split; [ring |]. split; [exact Hf |]. split; [reflexivity |].
    set (x := free_length s - wire_diameter s * (num_coils s + 2)).
    assert (Hx : wire_diameter s * (num_coils s + 2) = free_length s - x)
      by (unfold x; ring).
    rewrite Hx. clearbody x.
    repeat split; intros H; nra. }
  { exists_run steel64. by_run. }
Qed.

(** A spring of valid geometry too short for its coils: d (N + 2) = 12 is
    above L0 = 10, and the force comes out negative. *)
Lemma max_force_sign_witness :
  let s := {| mean_diameter := 5; wire_diameter := 1; free_length := 10;
              num_coils := 10; material := steel |} in
  exists k h x f : R,
    spring_constant s = Ok k /\ 0 < k /\
    solid_height s = Ok h /\ max_displacement s = Ok x /\
    h + x = free_length s /\
    max_force s = Ok f /\ f = k * x /\
    (0 < f <-> h < free_length s) /\
    (f = 0 <-> h = free_length s) /\
    (f < 0 <-> free_length s < h).
Proof.
  intros s. apply (proj1 max_force_sign s).
  - unfold valid_geometry, s. simpl. lra.
  - exists (29e6 * 6894.75729), 0.3. simpl. repeat split; lra.
Defined.

(** ** The shear modulus *)

(** X13, in exact arithmetic: with both moduli set, [shear_modulus] fails
    exactly when the Poisson ratio is -1 (a [ZeroDivisionError]); for E > 0
    and 0 < nu < 0.5 it lies strictly between E/3 and E/2.

    With doubles the upper bound is not strict: for E = 1 and nu = 2^-60
    the sum 1 + nu rounds to 1 and the result is E/2; a ratio of -1 raises
    [ZeroDivisionError] there too. *)
Theorem shear_modulus_bounds :
  (forall (m : Material R) (E nu : R),
     youngs_modulus m = Some E -> poisson_ratio m = Some nu ->
     (nu = -1 -> shear_modulus m = Raise ZeroDivisionError) /\
     (nu <> -1 -> shear_modulus m = Ok (E / (2 * (1 + nu)))) /\
     (0 < E -> 0 < nu < / 2 ->
      exists G : R, shear_modulus m = Ok G /\ E / 3 < G < E / 2)) /\
  (let E := 1%float in
   let m (nu : float) : Material float :=
     {| youngs_modulus := Some E; poisson_ratio := Some nu;
        density := None |} in
   (valid_material64 (m 0x1p-60%float) = true /\
    (1 + 0x1p-60)%float = 1%float /\
    shear_modulus (m 0x1p-60%float) = Ok (E / 2)%float) /\
   shear_modulus (m (-1)%float) = Raise ZeroDivisionError).
Proof.
  split.
  { intros m E nu.
    intros HE Hnu. split; [| split].
    - intros ->. unfold shear_modulus. rewrite HE, Hnu. cbn.
      apply div_by_zero. lra.
    - intros Hne. now apply shear_modulus_valid.
    - intros HEpos Hnupos. exists (E / (2 * (1 + nu))).
      split; [apply shear_modulus_valid; auto; lra |].
      split.
      + apply Rmult_lt_reg_r with (3 * (2 * (1 + nu))); [lra |].
        replace (E / 3 * (3 * (2 * (1 + nu)))) with (E * (2 * (1 + nu)))
          by (field; lra).
        replace (E / (2 * (1 + nu)) * (3 * (2 * (1 + nu)))) with (E * 3)
          by (field; lra).
        nra.
      + apply Rmult_lt_reg_r with (2 * (2 * (1 + nu))); [lra |].
        replace (E / 2 * (2 * (2 * (1 + nu)))) with (E * (2 * (1 + nu)))
          by (field; lra).
        replace (E / (2 * (1 + nu)) * (2 * (2 * (1 + nu)))) with (E * 2)
          by (field; lra).
        nra. }
  { by_run. }
Qed.

Lemma shear_modulus_bounds_witness :
  (0.3 = -1 -> shear_modulus steel = Raise ZeroDivisionError) /\
  (0.3 <> -1 ->
   shear_modulus steel = Ok (29e6 * 6894.75729 / (2 * (1 + 0.3)))) /\
  (0 < 29e6 * 6894.75729 -> 0 < 0.3 < / 2 ->
   exists G : R,
     shear_modulus steel = Ok G /\
     29e6 * 6894.75729 / 3 < G < 29e6 * 6894.75729 / 2).
Proof.
  apply (proj1 shear_modulus_bounds steel (29e6 * 6894.75729) 0.3); reflexivity.
Defined.

(** ** Material names *)

Lemma lower_ascii_idempotent (c : ascii) :
  lower_ascii (lower_ascii c) = lower_ascii c.
Proof. destruct c as [[] [] [] [] [] [] [] []]; reflexivity. Qed.

Lemma lower_idempotent (s : string) : lower (lower s) = lower s.
Proof.
  induction s as [| c s IH]; [reflexivity |].
  cbn [lower]. now rewrite lower_ascii_idempotent, IH.
Qed.

(** X14: [Material.__init__] looks at the name only through [lower]: two
    names that differ in casing only construct the same material and print
    the same, and a name can be replaced by its lower-case form.  This
    holds for every float arithmetic. *)
Theorem Material_init_case_insensitive
    {F : Type} {FF : Floating F} {FM : FloatMath F} (n1 n2 : string) :
  lower n1 = lower n2 ->
  Material_init (F := F) n1 = Material_init n2 /\
  Material_init (F := F) (lower n1) = Material_init n2.
Proof.
  intros H. unfold Material_init.
  rewrite lower_idempotent. now rewrite H.
Qed.

Lemma Material_init_case_insensitive_witness :
  Material_init (F := R) "STEEL" = Material_init "sTeEl" /\
  Material_init (F := R) (lower "STEEL") = Material_init "sTeEl".
Proof.
  apply (@Material_init_case_insensitive R _ _ "STEEL" "sTeEl").
  reflexivity.
Defined.

(** ** The conversion constants *)

Lemma converts_positive (c : R) : 0 < c -> converts c.
Proof.
  intros Hc x. split.
  - rewrite div_ok by lra. f_equal. field. lra.
  - exists (x / c). split; [apply div_ok; lra | field; lra].
Qed.

(** X15: no constant of units.py is zero, so a division by one never
    raises.  With doubles, [x / u] returns the quotient for every float x
    and every constant u, and sixteen [u.oz] are exactly [u.lb], sixteen
    [u.ozf] exactly [u.lbf].  In exact arithmetic every constant is
    positive, and [x * u] followed by [/ u] (or the other way round) gives
    [x] back; with doubles it does so only up to rounding: 3.0 inches in
    metres, divided by [u.inch], are 2.9999999999999996. *)
Theorem units_convert :
  (forall x : float,
     div x u.inch = Ok (quot x u.inch) /\ div x u.ft = Ok (quot x u.ft) /\
     div x u.ksi = Ok (quot x u.ksi) /\ div x u.psi = Ok (quot x u.psi) /\
     div x u.lb = Ok (quot x u.lb) /\ div x u.oz = Ok (quot x u.oz) /\
     div x u.lbf = Ok (quot x u.lbf) /\ div x u.ozf = Ok (quot x u.ozf) /\
     div x u.grains = Ok (quot x u.grains) /\ div x u.g = Ok (quot x u.g)) /\
  ((of_int 16 * @u.oz float _)%py = u.lb /\
   (of_int 16 * @u.ozf float _)%py = u.lbf) /\
  (y <- (lit 3.0 * u.inch) / u.inch ;; Ok (PrimFloat.ltb y (lit 3.0)))%py
    = Ok true /\
  ((0 < u.inch /\ 0 < u.ft /\ 0 < u.ksi /\ 0 < u.psi /\ 0 < u.lb /\
    0 < u.oz /\ 0 < u.lbf /\ 0 < u.ozf /\ 0 < u.grains /\ 0 < u.g) /\
   (converts u.inch /\ converts u.ft /\ converts u.ksi /\ converts u.psi /\
    converts u.lb /\ converts u.oz /\ converts u.lbf /\ converts u.ozf /\
    converts u.grains /\ converts u.g) /\
   16 * u.oz = u.lb /\ 16 * u.ozf = u.lbf).
Proof.
  split; [| split; [| split]].
  { intros x. unfold div.
    repeat split;
      match goal with
      | |- context [is_zero ?c] =>
          replace (is_zero c) with false by (vm_compute; reflexivity)
      end; reflexivity. }
  { by_run. }
  { by_run. }
  assert (Hinch : 0 < @u.inch R _) by (rewrite lit_inch; lra).
  assert (Hft : 0 < @u.ft R _) by (unfold u.ft; cbn; fold (@u.inch R _); lra).
  assert (Hksi : 0 < @u.ksi R _) by (rewrite lit_ksi; lra).
  assert (Hpsi : 0 < @u.psi R _) by (rewrite lit_psi; lra).
  assert (Hlb : 0 < @u.lb R _) by (rewrite lit_lb; lra).
  assert (H16 : lit 16.0 = 16) by (cbn; unfold Q2R; simpl; lra).
  assert (Hoz : @u.oz R _ = u.lb / 16) by (unfold u.oz; now rewrite H16).
  assert (Hlbf : 0 < @u.lbf R _) by (rewrite lit_lbf; lra).
  assert (Hozf : @u.ozf R _ = u.lbf / 16) by (unfold u.ozf; now rewrite H16).
  assert (Hgr : 0 < @u.grains R _)
    by (unfold u.grains; cbn; unfold Q2R; simpl; lra).
  assert (Hg : 0 < @u.g R _) by (unfold u.g; cbn; unfold Q2R; simpl; lra).
  assert (Hoz0 : 0 < @u.oz R _) by (rewrite Hoz; lra).
  assert (Hozf0 : 0 < @u.ozf R _) by (rewrite Hozf; lra).
  split; [repeat split; assumption |].
  split; [repeat split; now apply converts_positive |].
  split; [rewrite Hoz | rewrite Hozf]; field.
Qed.
